(** * lcs: light curves of an eclipsing pair of elliptical bodies

    A shallow embedding of [lcs/geometry.py], [lcs/core.py] and
    [lcs/system.py], followed by the properties of the flux model and of the
    simulation driver.

    Conventions of the embedding.
    - Python [float] and [int] values are real numbers ([R]): arithmetic is
      exact, rounding is not modelled.
    - Values whose Python type is inspected at run time (the brightness of a
      body) are elements of [pyval].
    - A Python exception is a value of [exn]; a call that may raise returns
      [res A]; a method that also mutates the system runs in the monad [M],
      in which the state reached so far survives an exception.
    - [numpy.linspace], the builtins [max], [min], [sum], [zip] and the
      shapely calls are library code: they are modelled after their
      documented behaviour. *)

From Stdlib Require Import Reals Lra Lia ZArith List Bool String.
Import ListNotations.

Open Scope R_scope.

(** ** Python values, exceptions *)

#[local] Set Warnings "-register-all".

Inductive pyval : Type :=
| VNum (v : R)                (* float, int *)
| VStr (s : string)           (* str *)
| VNone                       (* None *)
| VList (l : list pyval)      (* list, 1-d numpy.ndarray *)
| VTuple (l : list pyval).    (* tuple *)

Inductive exn : Type :=
| ValueError
| IndexError
| TypeError.

Definition res (A : Type) : Type := (exn + A)%type.

Definition ok {A} (v : A) : res A := inr v.
Definition raise {A} (e : exn) : res A := inl e.

Definition rbind {A B} (c : res A) (k : A -> res B) : res B :=
  match c with
  | inl e => inl e
  | inr v => k v
  end.

Declare Scope res_scope.
Delimit Scope res_scope with res.
Notation "x <- c ;; k" := (rbind c (fun x => k))
  (at level 61, c at next level, right associativity) : res_scope.

(** A comprehension whose body may raise: elements are evaluated in order
    and the first exception ends the evaluation. *)
Fixpoint mapM {A B} (f : A -> res B) (l : list A) : res (list B) :=
  match l with
  | [] => ok []
  | v :: l' =>
      (w <- f v ;;
       ws <- mapM f l' ;;
       ok (w :: ws))%res
  end.

(** [isinstance(v, (float, int))] *)
Definition is_number (v : pyval) : bool :=
  match v with VNum _ => true | _ => false end.

(** [isinstance(v, (list, np.ndarray))] *)
Definition is_list (v : pyval) : bool :=
  match v with VList _ => true | _ => false end.

(** [len(v)] for a list. *)
Definition py_len (l : list pyval) : Z := Z.of_nat (List.length l).

(** [x * v] for a float [x]: defined when [v] is a number. *)
Definition py_mul (x : R) (v : pyval) : res R :=
  match v with
  | VNum k => ok (x * k)
  | _ => raise TypeError
  end.

(** [sum(l)]: left to right, from 0. *)
Definition py_sum (l : list R) : R := fold_left Rplus l 0.

(** [max(l)]: [ValueError] on an empty sequence. *)
Definition py_max (l : list R) : res R :=
  match l with
  | [] => raise ValueError
  | v :: l' => ok (fold_left Rmax l' v)
  end.

(** [l[-1]]: [IndexError] on an empty list. *)
Definition py_last {A} (l : list A) : res A :=
  match rev l with
  | [] => raise IndexError
  | v :: _ => ok v
  end.

(** ** numpy.linspace

    [np.linspace(start, stop, num)] with [endpoint=True]: a negative [num]
    is a [ValueError]; otherwise [num] samples [i * step + start] with
    [step = (stop - start) / (num - 1)] (for [num = 1] the one sample is
    [0 * (stop - start) + start]), and for [num > 1] the last sample is
    overwritten by [stop]. *)
Definition linspace_samples (start stop : R) (n : nat) : list R :=
  let div := (n - 1)%nat in
  let delta := stop - start in
  let y := map INR (seq 0 n) in
  let y := if (0 <? div)%nat
           then map (fun v => v * (delta / INR div)) y
           else map (fun v => v * delta) y in
  let y := map (fun v => v + start) y in
  if (1 <? n)%nat then removelast y ++ [stop] else y.

Definition linspace (start stop : R) (num : Z) : res (list R) :=
  if (num <? 0)%Z then raise ValueError
  else ok (linspace_samples start stop (Z.to_nat num)).

(** ** v3d.Point *)

Module Point.

(** Modelled from the spec: the module [lcs/v3d.py] that defines [Point]
    is not among the sources.  A point is an immutable pair of coordinates
    [x], [y]; [+] is the translation by a vector. *)
Record t : Type := mk { x : R; y : R }.

Definition add (p q : t) : t := mk (x p + x q) (y p + y q).

End Point.

(** ** shapely *)

(** The polygons the program asks shapely for, as the calls that build them.
    [Buffer c r] is [Point(c.x, c.y).buffer(r)]; [Scale g xf yf] is
    [affinity.scale(g, xf, yf)] and [Rotate g angle] is
    [affinity.rotate(g, angle)], both about the default origin ['center'],
    the centre of the bounding box of [g], the angle in degrees and
    counter-clockwise; [Difference g h] is [g.difference(h)]. *)
Inductive Shape : Type :=
| Buffer (c : Point.t) (r : R)
| Scale (g : Shape) (xfact yfact : R)
| Rotate (g : Shape) (angle : R).

Inductive Polygon : Type :=
| Solid (s : Shape)
| Difference (g h : Polygon).

(** The centre of the bounding box: a buffer is symmetric about its point,
    and scaling or rotating about the centre keeps that symmetry. *)
Fixpoint center (s : Shape) : Point.t :=
  match s with
  | Buffer c _ => c
  | Scale g _ _ => center g
  | Rotate g _ => center g
  end.

Definition radians (angle : R) : R := angle * PI / 180.

(** The points of a shape, the buffer taken as the exact disc. *)
Fixpoint inside (s : Shape) (p : Point.t) : Prop :=
  match s with
  | Buffer c r =>
      (Point.x p - Point.x c) * (Point.x p - Point.x c)
      + (Point.y p - Point.y c) * (Point.y p - Point.y c) <= r * r
  | Scale g xf yf =>
      exists q, inside g q
        /\ Point.x p = Point.x (center g) + xf * (Point.x q - Point.x (center g))
        /\ Point.y p = Point.y (center g) + yf * (Point.y q - Point.y (center g))
  | Rotate g angle =>
      exists q, inside g q
        /\ Point.x p = Point.x (center g)
                       + cos (radians angle) * (Point.x q - Point.x (center g))
                       - sin (radians angle) * (Point.y q - Point.y (center g))
        /\ Point.y p = Point.y (center g)
                       + sin (radians angle) * (Point.x q - Point.x (center g))
                       + cos (radians angle) * (Point.y q - Point.y (center g))
  end.

Fixpoint covers (g : Polygon) (p : Point.t) : Prop :=
  match g with
  | Solid s => inside s p
  | Difference g1 g2 => covers g1 p /\ ~ covers g2 p
  end.

(** The exact area of a shape: a disc of radius [r] has area [PI * r * r],
    scaling multiplies the area by [|xfact * yfact|], rotating keeps it. *)
Fixpoint shape_area (s : Shape) : R :=
  match s with
  | Buffer _ r => PI * r * r
  | Scale g xf yf => Rabs (xf * yf) * shape_area g
  | Rotate g _ => shape_area g
  end.

(** The area of a shape as shapely measures it.  With the default
    [quad_segs = 16] segments to a quarter circle, [Point(x, y).buffer(r)]
    is the regular polygon of [4 * 16] vertices inscribed in the circle of
    radius [r], of area [2 * 16 * sin (PI / (2 * 16)) * r * r]: 3.1365... for
    [r = 1], as shapely's manual gives it.  Scaling multiplies the area by
    [|xfact * yfact|], rotating keeps it. *)
Definition quad_segs : nat := 16.

Definition buffer_area (r : R) : R :=
  2 * INR quad_segs * sin (PI / (2 * INR quad_segs)) * (r * r).

Fixpoint polygon_area (s : Shape) : R :=
  match s with
  | Buffer _ r => buffer_area r
  | Scale g xf yf => Rabs (xf * yf) * polygon_area g
  | Rotate g _ => polygon_area g
  end.

(** ** lcs/geometry.py *)

Module Ellipse.

Record t : Type := mk {
  pos : Point.t;
  a : R;
  b : R;
  theta : R;
  brightness : pyval
}.

(** [Ellipse(pos, a, b, theta, brightness)]: [__init__] stores its
    arguments and has no [raise]. *)
Definition init (pos : Point.t) (a b theta : R) (brightness : pyval) : res t :=
  ok (mk pos a b theta brightness).

(** The shape under [geometry]. *)
Definition shape (e : t) : Shape :=
  Rotate
    (Scale
       (Buffer (Point.mk (Point.x (pos e) - 1 / 2) (Point.y (pos e) - 1 / 2)) 1)
       (a e)
       (b e))
    (theta e).

Definition geometry (e : t) : Polygon := Solid (shape e).

Definition move (self : t) (point : Point.t) (relative : bool) : t :=
  if relative
  then mk (Point.add (pos self) point) (a self) (b self) (theta self)
         (brightness self)
  else mk point (a self) (b self) (theta self) (brightness self).

Definition reshape (self : t) (a' b' : R) : t :=
  mk (pos self) a' b' (theta self) (brightness self).

Definition rotate (self : t) (angle : R) (relative : bool) : t :=
  if relative
  then mk (pos self) (a self) (b self) (theta self + angle) (brightness self)
  else mk (pos self) (a self) (b self) angle (brightness self).

End Ellipse.

Module EllipticRing.

Record t : Type := mk {
  pos : Point.t;
  a_range : R * R;
  b_range : R * R;
  theta : R;
  brightness : pyval
}.

(** [EllipticRing(pos, a_range, b_range, theta, brightness)]: [__init__]
    stores its arguments and has no [raise]. *)
Definition init (pos : Point.t) (a_range b_range : R * R) (theta : R)
    (brightness : pyval) : res t :=
  ok (mk pos a_range b_range theta brightness).

(** [max(r)], [min(r)] of a two-element range. *)
Definition max (r : R * R) : R := Rmax (fst r) (snd r).
Definition min (r : R * R) : R := Rmin (fst r) (snd r).

Definition outer (e : t) : Shape :=
  Rotate
    (Scale
       (Buffer (Point.mk (Point.x (pos e)) (Point.y (pos e))) 1)
       (max (a_range e))
       (max (b_range e)))
    (theta e).

Definition inner (e : t) : Shape :=
  Rotate
    (Scale
       (Buffer (Point.mk (Point.x (pos e)) (Point.y (pos e))) 1)
       (min (a_range e))
       (min (b_range e)))
    (theta e).

Definition geometry (e : t) : Polygon :=
  Difference (Solid (outer e)) (Solid (inner e)).

Definition move (self : t) (point : Point.t) (relative : bool) : t :=
  if relative
  then mk (Point.add (pos self) point) (a_range self) (b_range self)
         (theta self) (brightness self)
  else mk point (a_range self) (b_range self) (theta self) (brightness self).

Definition reshape (self : t) (a_range' b_range' : R * R) : t :=
  mk (pos self) a_range' b_range' (theta self) (brightness self).

Definition rotate (self : t) (angle : R) (relative : bool) : t :=
  if relative
  then mk (pos self) (a_range self) (b_range self) (theta self + angle)
         (brightness self)
  else mk (pos self) (a_range self) (b_range self) angle (brightness self).

End EllipticRing.

(** An element of [bodies]: an [Ellipse] or an [EllipticRing]; [geometry]
    is the property of whichever class the element has. *)
Inductive Region : Type :=
| REllipse (e : Ellipse.t)
| RRing (e : EllipticRing.t).

Definition geometry (r : Region) : Polygon :=
  match r with
  | REllipse e => Ellipse.geometry e
  | RRing e => EllipticRing.geometry e
  end.

Definition region_pos (r : Region) : Point.t :=
  match r with
  | REllipse e => Ellipse.pos e
  | RRing e => EllipticRing.pos e
  end.

Definition region_theta (r : Region) : R :=
  match r with
  | REllipse e => Ellipse.theta e
  | RRing e => EllipticRing.theta e
  end.

(** [r.move(point, relative)] and [r.rotate(angle, relative)] of an element
    of [bodies], by the class of the element. *)
Definition region_move (point : Point.t) (relative : bool) (r : Region) : Region :=
  match r with
  | REllipse e => REllipse (Ellipse.move e point relative)
  | RRing e => RRing (EllipticRing.move e point relative)
  end.

Definition region_rotate (angle : R) (relative : bool) (r : Region) : Region :=
  match r with
  | REllipse e => REllipse (Ellipse.rotate e angle relative)
  | RRing e => RRing (EllipticRing.rotate e angle relative)
  end.

Definition region_brightness (r : Region) : pyval :=
  match r with
  | REllipse e => Ellipse.brightness e
  | RRing e => EllipticRing.brightness e
  end.

(** ** lcs/core.py *)

Module EllipticalBody.

Record t : Type := mk {
  pos : Point.t;
  a : R;
  b : R;
  theta : R;
  brightness : pyval
}.

(** [EllipticalBody(pos, a, b, theta, brightness)] *)
Definition init (pos : Point.t) (a b theta : R) (brightness : pyval) : res t :=
  ok (mk pos a b theta brightness).

(** [zip(a_s2use, b_s2use, self.brightness)] *)
Definition zip3 {A B C} (l1 : list A) (l2 : list B) (l3 : list C)
    : list (A * B * C) :=
  combine (combine l1 l2) l3.

(** [np.column_stack((s[:-1], s[1:]))] *)
Definition column_stack (s : list R) : list (R * R) :=
  combine (removelast s) (tl s).

Definition bodies (self : t) : res (list Region) :=
  match brightness self with
  | VNum _ =>
      (e <- Ellipse.init (pos self) (a self) (b self) (theta self)
              (brightness self) ;;
       ok [REllipse e])%res
  | VList l =>
      (a_s <- linspace (a self) 0 (py_len l) ;;
       b_s <- linspace (b self) 0 (py_len l) ;;
       let a_s2use := column_stack a_s in
       let b_s2use := column_stack b_s in
       mapM (fun '(ar, br, brightness) =>
               e <- EllipticRing.init (pos self) ar br (theta self)
                      brightness ;;
               ok (RRing e))
            (zip3 a_s2use b_s2use l))%res
  | _ => raise ValueError
  end.

Definition move (self : t) (point : Point.t) (relative : bool) : t :=
  if relative
  then mk (Point.add (pos self) point) (a self) (b self) (theta self)
         (brightness self)
  else mk point (a self) (b self) (theta self) (brightness self).

Definition reshape (self : t) (a' b' : R) : t :=
  mk (pos self) a' b' (theta self) (brightness self).

Definition rotate (self : t) (angle : R) (relative : bool) : t :=
  if relative
  then mk (pos self) (a self) (b self) (theta self + angle)
         (brightness self)
  else mk (pos self) (a self) (b self) angle (brightness self).

End EllipticalBody.

(** ** lcs/system.py *)

Module Binary.

(** A [Binary] holds references to the two bodies it was built from.
    [Two p q] is [Binary(p, q)] for two distinct objects, [Same p] is
    [Binary(p, p)]: both attributes name one object, and a mutation
    through [self.bodyB] is seen through [self.bodyA]. *)
Inductive t : Type :=
| Two (p q : EllipticalBody.t)
| Same (p : EllipticalBody.t).

Definition bodyA (self : t) : EllipticalBody.t :=
  match self with
  | Two p _ => p
  | Same p => p
  end.

Definition bodyB (self : t) : EllipticalBody.t :=
  match self with
  | Two _ q => q
  | Same p => p
  end.

(** A call of a mutator of [self.bodyB]. *)
Definition on_bodyB (f : EllipticalBody.t -> EllipticalBody.t) (self : t) : t :=
  match self with
  | Two p q => Two p (f q)
  | Same p => Same (f p)
  end.

(** Methods that mutate: the system after the call comes with the value
    or the exception. *)
Definition M (A : Type) : Type := t -> res A * t.

Definition mret {A} (v : A) : M A := fun s => (ok v, s).

Definition mbind {A B} (c : M A) (k : A -> M B) : M B :=
  fun s =>
    match c s with
    | (inl e, s') => (inl e, s')
    | (inr v, s') => k v s'
    end.

(** A computation that reads [self] and mutates nothing. *)
Definition reading {A} (f : t -> res A) : M A := fun s => (f s, s).

(** A mutation that cannot raise. *)
Definition mutate (f : t -> t) : M unit := fun s => (ok tt, f s).

Declare Scope M_scope.
Delimit Scope M_scope with M.
Notation "x <- c ;; k" := (mbind c (fun x => k))
  (at level 61, c at next level, right associativity) : M_scope.
Notation "' pat <- c ;; k" := (mbind c (fun x => match x with pat => k end))
  (at level 61, pat pattern, c at next level, right associativity) : M_scope.
Notation "c ;; k" := (mbind c (fun _ => k))
  (at level 61, right associativity) : M_scope.

(** [zip(l, v)] for the second argument [v] of run-time type: a list or a
    tuple is iterated over its items, a string over its characters; a
    number or [None] is not iterable. *)
Definition py_zip {A} (l : list A) (v : pyval) : res (list (A * pyval)) :=
  match v with
  | VList l' => ok (combine l l')
  | VTuple l' => ok (combine l l')
  | VStr s =>
      ok (combine l
            (map (fun c => VStr (String c EmptyString)) (list_ascii_of_string s)))
  | _ => raise TypeError
  end.

(** [brtns] of the three flux methods. *)
Definition brtns_of (body : EllipticalBody.t) : pyval :=
  if is_number (EllipticalBody.brightness body)
  then VList [EllipticalBody.brightness body]
  else EllipticalBody.brightness body.

Section Flux.

(** [polygon.area], as shapely computes it. *)
Variable area : Polygon -> R.

(** The body shared by [get_mag_A] and [get_mag_B]: in
    [zip(body.bodies, brtns)] the property [bodies] is evaluated
    first. *)
Definition mag_of (body : EllipticalBody.t) : res R :=
  (let brtns := brtns_of body in
   bs <- EllipticalBody.bodies body ;;
   pairs <- py_zip bs brtns ;;
   terms <- mapM (fun '(b, br) => py_mul (area (geometry b)) br) pairs ;;
   ok (py_sum terms))%res.

Definition get_mag_A (self : t) : res R := mag_of (bodyA self).

Definition get_mag_B (self : t) : res R := mag_of (bodyB self).

(** [self.bodyB.bodies[-1]] *)
Definition silhouette (self : t) : res Region :=
  (bs <- EllipticalBody.bodies (bodyB self) ;;
   py_last bs)%res.

Definition get_total_mag (self : t) : res R :=
  (b_mag <- get_mag_B self ;;
   let brtns := brtns_of (bodyA self) in
   bs <- EllipticalBody.bodies (bodyA self) ;;
   pairs <- py_zip bs brtns ;;
   terms <- mapM (fun '(b, br) =>
                    sil <- silhouette self ;;
                    py_mul (area (Difference (geometry b) (geometry sil))) br)
                 pairs ;;
   let a_mag := py_sum terms in
   ok (b_mag + a_mag))%res.

(** The loop of [simulate], with [save_to=None]: [it] is the index of
    the next sample, [ret] the entries appended so far. *)
Fixpoint frames (it : nat) (samples : list (R * R * R))
    (ret : list (nat * R)) : M (list (nat * R)) :=
  match samples with
  | [] => mret ret
  | (x, y, ang) :: rest =>
      (mutate (on_bodyB (fun q => EllipticalBody.move q (Point.mk x y) false)) ;;
       mutate (on_bodyB (fun q => EllipticalBody.rotate q ang false)) ;;
       mag <- reading get_total_mag ;;
       frames (S it) rest (ret ++ [(it, mag)]))%M
  end.

(** [xs], [ys], [angs] and [upper_x_lims] of [simulate]. *)
Definition samples_of (self : t) (to : Point.t) (angle : R) (step : Z)
    : res (list (R * R * R) * (R * R)) :=
  (xs <- linspace (Point.x (EllipticalBody.pos (bodyB self))) (Point.x to) step ;;
   ys <- linspace (Point.y (EllipticalBody.pos (bodyB self))) (Point.y to) step ;;
   angs <- linspace (EllipticalBody.theta (bodyB self)) angle step ;;
   lo <- py_max (map Rabs xs) ;;
   hi <- py_max (map (fun v => Rabs v + 10) xs) ;;
   let upper_x_lims := (- lo - 10, hi) in
   ok (EllipticalBody.zip3 xs ys angs, upper_x_lims))%res.

Definition simulate (to : Point.t) (angle : R) (step : Z)
    : M (list (nat * R)) :=
  ('(samples, _) <- reading (fun self => samples_of self to angle step) ;;
   frames 0 samples [])%M.

End Flux.

End Binary.

(** * Notions used by the statements *)

(** The linear interpolation between [start] and [stop]: sample [i] of
    [n]. *)
Definition interpolate (start stop : R) (n i : nat) : R :=
  start + INR i * (stop - start) / INR (n - 1).

(** The ring built from one row of [zip(a_s2use, b_s2use, brightness)] of
    [bodies], and the list of rings of a profile [l]. *)
Definition ring_of (self : EllipticalBody.t) (row : R * R * (R * R) * pyval)
    : Region :=
  let '(ar, br, v) := row in
  RRing (EllipticRing.mk (EllipticalBody.pos self) ar br
           (EllipticalBody.theta self) v).

Definition rings_of (self : EllipticalBody.t) (l : list pyval) : list Region :=
  let n := List.length l in
  map (ring_of self)
    (EllipticalBody.zip3
       (EllipticalBody.column_stack (linspace_samples (EllipticalBody.a self) 0 n))
       (EllipticalBody.column_stack (linspace_samples (EllipticalBody.b self) 0 n))
       l).

(** An ordered numeric sequence: a list, array or tuple of numbers. *)
Definition is_numeric_sequence (v : pyval) : bool :=
  match v with
  | VList l => forallb is_number l
  | VTuple l => forallb is_number l
  | _ => false
  end.

(** The squared distance of two points. *)
Definition dist2 (p q : Point.t) : R :=
  (Point.x p - Point.x q) * (Point.x p - Point.x q)
  + (Point.y p - Point.y q) * (Point.y p - Point.y q).

(** One sample of [simulate] applied to the system: [self.bodyB.move] to
    the point [(x, y)], then [self.bodyB.rotate] to [ang], both absolute. *)
Definition place (sample : R * R * R) (s : Binary.t) : Binary.t :=
  let '(x, y, ang) := sample in
  Binary.on_bodyB (fun q => EllipticalBody.rotate q ang false)
    (Binary.on_bodyB (fun q => EllipticalBody.move q (Point.mk x y) false) s).

(** Two bodies that differ at most in position and orientation. *)
Definition same_shape (q q' : EllipticalBody.t) : Prop :=
  EllipticalBody.a q' = EllipticalBody.a q
  /\ EllipticalBody.b q' = EllipticalBody.b q
  /\ EllipticalBody.brightness q' = EllipticalBody.brightness q.

(** Two states of a system that differ at most in the position and the
    orientation of the object [bodyB]. *)
Definition pose_only (s s' : Binary.t) : Prop :=
  match s, s' with
  | Binary.Two p q, Binary.Two p' q' => p' = p /\ same_shape q q'
  | Binary.Same p, Binary.Same p' => same_shape p p'
  | _, _ => False
  end.

(** The area of a polygon in which every subtracted polygon lies within the
    polygon it is subtracted from, as the inner ellipse of a ring does. *)
Fixpoint nested_area (g : Polygon) : R :=
  match g with
  | Solid s => shape_area s
  | Difference g1 g2 => nested_area g1 - nested_area g2
  end.

(** ** Bodies and systems of the examples *)

Definition origin : Point.t := Point.mk 0 0.

(** A disc of radius 3 and uniform brightness 1. *)
Definition disc : EllipticalBody.t :=
  EllipticalBody.mk origin 3 3 0 (VNum 1).

(** An ellipse of semi-axes 2 and 1 and uniform brightness 1. *)
Definition oval : EllipticalBody.t :=
  EllipticalBody.mk origin 2 1 0 (VNum 1).

(** A disc of radius 3 with a limb-darkening profile of three values. *)
Definition star : EllipticalBody.t :=
  EllipticalBody.mk origin 3 3 0 (VList [VNum 1; VNum (9 / 10); VNum (8 / 10)]).

(** A disc of radius 4 with a profile of three values. *)
Definition shaded : EllipticalBody.t :=
  EllipticalBody.mk origin 4 4 0
    (VList [VNum (1 / 10); VNum (1 / 10); VNum (1 / 10)]).

(** A disc of radius 5 and uniform brightness 1/10, centred at (81/10, 0):
    further from the origin than 3 + 5. *)
Definition tno : EllipticalBody.t :=
  EllipticalBody.mk (Point.mk (81 / 10) 0) 5 5 0 (VNum (1 / 10)).

(** A body whose brightness is a list of strings. *)
Definition lettered : EllipticalBody.t :=
  EllipticalBody.mk origin 3 3 0 (VList [VStr "x"; VStr "y"]).

(** A body whose brightness is a tuple of numbers. *)
Definition tupled : EllipticalBody.t :=
  EllipticalBody.mk origin 3 3 0 (VTuple [VNum 1; VNum (1 / 2)]).

(** ** Notions of the further properties *)

(** The exception of [get_mag_A] and [get_mag_B], read off the brightness
    of the body: none for a number and for a list whose values, the last
    one apart, are numbers. *)
Definition mag_error (v : pyval) : option exn :=
  match v with
  | VNum _ => None
  | VList l => if forallb is_number (removelast l) then None else Some TypeError
  | _ => Some ValueError
  end.

(** A brightness from which [bodies] derives no region: a list of fewer
    than two values. *)
Definition no_region (v : pyval) : bool :=
  match v with
  | VList l => (List.length l <=? 1)%nat
  | _ => false
  end.

(** The exception of [get_total_mag], read off the brightness [vA] of the
    first body and [vB] of the second. *)
Definition total_error (vA vB : pyval) : option exn :=
  match mag_error vB with
  | Some e => Some e
  | None =>
      match vA with
      | VNum _ => if no_region vB then Some IndexError else None
      | VList l =>
          if no_region vA then None
          else if no_region vB then Some IndexError
          else if forallb is_number (removelast l) then None
          else Some TypeError
      | _ => Some ValueError
      end
  end.

(** A brightness made of numbers that are not negative. *)
Definition nonneg (v : pyval) : Prop :=
  match v with
  | VNum k => 0 <= k
  | _ => False
  end.

Definition nonneg_brightness (v : pyval) : Prop :=
  match v with
  | VNum k => 0 <= k
  | VList l => Forall nonneg l
  | _ => False
  end.

(** Sample [i] of the [n] poses of a run of [simulate] from the state [s]
    towards the point [to] and the orientation [angle]. *)
Definition sample_at (s : Binary.t) (to : Point.t) (angle : R) (n i : nat)
    : R * R * R :=
  (interpolate (Point.x (EllipticalBody.pos (Binary.bodyB s))) (Point.x to) n i,
   interpolate (Point.y (EllipticalBody.pos (Binary.bodyB s))) (Point.y to) n i,
   interpolate (EllipticalBody.theta (Binary.bodyB s)) angle n i).

(** The area of the polygon from which the others are subtracted: the area
    of a difference whose subtracted polygons miss it. *)
Fixpoint minuend_area (g : Polygon) : R :=
  match g with
  | Solid s => shape_area s
  | Difference g1 _ => minuend_area g1
  end.

(** The translation of a point. *)
Definition shift (p d : Point.t) : Point.t := Point.add p d.

(** The number held by a value that is a number. *)
Definition number_of (v : pyval) : R :=
  match v with
  | VNum k => k
  | _ => 0
  end.

(** The regions of a body paired with the brightness values that the flux
    methods weigh them with: [zip(body.bodies, brtns)]. *)
Definition flux_pairs (body : EllipticalBody.t) : list (Region * pyval) :=
  match EllipticalBody.bodies body, Binary.brtns_of body with
  | inr rs, VList l => combine rs l
  | _, _ => []
  end.

(** The result of a call that may raise, passed through a function. *)
Definition rmap {A B} (f : A -> B) (c : res A) : res B :=
  match c with
  | inl e => inl e
  | inr v => inr (f v)
  end.

(** A shape built about a point translated by [d]. *)
Fixpoint shape_shift (d : Point.t) (s : Shape) : Shape :=
  match s with
  | Buffer c r => Buffer (shift c d) r
  | Scale g xf yf => Scale (shape_shift d g) xf yf
  | Rotate g angle => Rotate (shape_shift d g) angle
  end.

(** * Properties *)

(** ** Lists and exceptions *)

Lemma mapM_total {A B} (f : A -> res B) (g : A -> B) (l : list A) :
  (forall v, f v = ok (g v)) -> mapM f l = ok (map g l).
Proof.
  intros Hf. induction l as [|v l IH]; simpl.
  - reflexivity.
  - rewrite Hf, IH. reflexivity.
Qed.

Lemma nth_error_combine {A B} (l : list A) (l' : list B) (i : nat) :
  nth_error (combine l l') i =
  match nth_error l i, nth_error l' i with
  | Some v, Some w => Some (v, w)
  | _, _ => None
  end.
Proof.
  revert l' i. induction l as [|v l IH]; intros [|w l'] [|i]; simpl;
    try reflexivity.
  - destruct (nth_error l i); reflexivity.
  - apply IH.
Qed.

Lemma nth_error_removelast {A} (l : list A) (i : nat) :
  (S i < List.length l)%nat -> nth_error (removelast l) i = nth_error l i.
Proof.
  revert i. induction l as [|v l IH]; intros i Hi; simpl in *.
  - lia.
  - destruct l as [|w l]; simpl in *; [lia|].
    destruct i as [|i]; simpl; [reflexivity|].
    apply IH. simpl. lia.
Qed.

Lemma length_removelast {A} (l : list A) :
  List.length (removelast l) = (List.length l - 1)%nat.
Proof.
  rewrite removelast_firstn_len, length_firstn. lia.
Qed.

Lemma nth_error_tl {A} (l : list A) (i : nat) :
  nth_error (tl l) i = nth_error l (S i).
Proof. destruct l; simpl; [destruct i|]; reflexivity. Qed.

Lemma py_last_app {A} (l : list A) (v : A) : py_last (l ++ [v]) = ok v.
Proof. unfold py_last. rewrite rev_app_distr. reflexivity. Qed.

(** ** linspace *)

Lemma linspace_samples_length (start stop : R) (n : nat) :
  List.length (linspace_samples start stop n) = n.
Proof.
  unfold linspace_samples.
  assert (Hy : forall f g : R -> R,
             List.length (map f (map g (map INR (seq 0 n)))) = n).
  { intros f g. rewrite !length_map, length_seq. reflexivity. }
  destruct (0 <? n - 1)%nat; destruct (1 <? n)%nat eqn:Hn;
    try apply Nat.ltb_lt in Hn;
    rewrite ?length_app, ?length_removelast, ?Hy; simpl; lia.
Qed.

(** A single sample is the start. *)
Lemma linspace_samples_one (start stop : R) :
  linspace_samples start stop 1 = [start].
Proof.
  unfold linspace_samples. simpl. f_equal. lra.
Qed.

(** No sample at all. *)
Lemma linspace_samples_zero (start stop : R) :
  linspace_samples start stop 0 = [].
Proof. reflexivity. Qed.

Lemma linspace_samples_nth (start stop : R) (n i : nat) :
  (2 <= n)%nat -> (i < n)%nat ->
  nth_error (linspace_samples start stop n) i = Some (interpolate start stop n i).
Proof.
  intros Hn Hi. unfold linspace_samples, interpolate.
  assert (H0 : (0 <? n - 1)%nat = true) by (apply Nat.ltb_lt; lia).
  assert (H1 : (1 <? n)%nat = true) by (apply Nat.ltb_lt; lia).
  rewrite H0, H1.
  assert (Hd : INR (n - 1) <> 0) by (apply not_0_INR; lia).
  set (y := map _ (map _ (map INR (seq 0 n)))).
  assert (Hlen : List.length y = n).
  { unfold y. rewrite !length_map, length_seq. reflexivity. }
  assert (Hy : forall j, (j < n)%nat ->
             nth_error y j = Some (INR j * ((stop - start) / INR (n - 1)) + start)).
  { intros j Hj. unfold y. rewrite !nth_error_map, nth_error_seq.
    apply Nat.ltb_lt in Hj. rewrite Hj. reflexivity. }
  destruct (Nat.eq_dec i (n - 1)) as [->|Hne].
  - rewrite nth_error_app2 by (rewrite length_removelast; lia).
    rewrite length_removelast, Hlen, Nat.sub_diag. simpl.
    f_equal. field. exact Hd.
  - rewrite nth_error_app1 by (rewrite length_removelast; lia).
    rewrite nth_error_removelast by lia.
    rewrite Hy by lia. f_equal. field. exact Hd.
Qed.

(** The last two samples of the interpolation down to 0: the semi-axis
    divided by [n - 1], and 0. *)
Lemma interpolate_before_last (a : R) (n : nat) :
  (2 <= n)%nat -> interpolate a 0 n (n - 2) = a / INR (n - 1).
Proof.
  intros Hn. unfold interpolate.
  replace (n - 1)%nat with (S (n - 2)) by lia. rewrite S_INR.
  assert (0 <= INR (n - 2)) by apply pos_INR.
  field. lra.
Qed.

Lemma interpolate_last (a : R) (n : nat) :
  (2 <= n)%nat -> interpolate a 0 n (S (n - 2)) = 0.
Proof.
  intros Hn. unfold interpolate.
  replace (n - 1)%nat with (S (n - 2)) by lia.
  assert (0 < INR (S (n - 2))) by (apply lt_0_INR; lia).
  field. lra.
Qed.

Lemma linspace_nonneg (start stop : R) (num : Z) :
  (0 <= num)%Z ->
  linspace start stop num = ok (linspace_samples start stop (Z.to_nat num)).
Proof.
  intros H. unfold linspace.
  destruct (num <? 0)%Z eqn:E; [apply Z.ltb_lt in E; lia | reflexivity].
Qed.

Lemma linspace_negative (start stop : R) (num : Z) :
  (num < 0)%Z -> linspace start stop num = raise ValueError.
Proof.
  intros H. unfold linspace. apply Z.ltb_lt in H. rewrite H. reflexivity.
Qed.

(** ** bodies *)

Section Bodies.

Import EllipticalBody.

Variable self : EllipticalBody.t.

Lemma bodies_scalar (v : R) :
  brightness self = VNum v ->
  bodies self =
  ok [REllipse (Ellipse.mk (pos self) (a self) (b self) (theta self) (VNum v))].
Proof.
  intros H. unfold bodies. rewrite H. reflexivity.
Qed.

Lemma bodies_profile (l : list pyval) :
  brightness self = VList l -> bodies self = ok (rings_of self l).
Proof.
  intros H. unfold bodies. rewrite H. unfold py_len.
  rewrite !linspace_nonneg by lia. rewrite Nat2Z.id. simpl.
  apply mapM_total. intros [[ar br] v]. reflexivity.
Qed.

Lemma column_stack_length (s : list R) :
  List.length (column_stack s) = (List.length s - 1)%nat.
Proof.
  unfold column_stack.
  rewrite length_combine, length_removelast, length_tl. lia.
Qed.

Lemma column_stack_nth (s : list R) (i : nat) (v w : R) :
  nth_error s i = Some v -> nth_error s (S i) = Some w ->
  nth_error (column_stack s) i = Some (v, w).
Proof.
  intros Hv Hw. unfold column_stack.
  assert (Hlen : (S i < List.length s)%nat).
  { apply nth_error_Some. rewrite Hw. discriminate. }
  rewrite nth_error_combine, nth_error_removelast, nth_error_tl, Hv, Hw by lia.
  reflexivity.
Qed.

Lemma rings_of_length (l : list pyval) :
  List.length (rings_of self l) = (List.length l - 1)%nat.
Proof.
  unfold rings_of, zip3.
  rewrite length_map, !length_combine, !column_stack_length,
    !linspace_samples_length.
  lia.
Qed.

Lemma rings_of_nth (l : list pyval) (i : nat) (v : pyval) :
  (2 <= List.length l)%nat -> (S i < List.length l)%nat ->
  nth_error l i = Some v ->
  nth_error (rings_of self l) i =
  Some (RRing (EllipticRing.mk (pos self)
                 (interpolate (a self) 0 (List.length l) i,
                  interpolate (a self) 0 (List.length l) (S i))
                 (interpolate (b self) 0 (List.length l) i,
                  interpolate (b self) 0 (List.length l) (S i))
                 (theta self) v)).
Proof.
  intros Hn Hi Hv. unfold rings_of, zip3.
  rewrite nth_error_map, !nth_error_combine.
  rewrite !(column_stack_nth _ i _ _
              (linspace_samples_nth _ _ _ i Hn ltac:(lia))
              (linspace_samples_nth _ _ _ (S i) Hn ltac:(lia))).
  rewrite Hv. reflexivity.
Qed.

Lemma map_snd_combine_long {A B} (l : list A) (l' : list B) :
  map snd (combine l l') = firstn (List.length l) l'.
Proof.
  revert l'. induction l as [|v l IH]; intros [|w l']; simpl;
    try reflexivity.
  f_equal. apply IH.
Qed.

(** The brightness of the rings, in order: the profile without its last
    value. *)
Lemma rings_of_brightness (l : list pyval) :
  map region_brightness (rings_of self l) = removelast l.
Proof.
  unfold rings_of, zip3. rewrite map_map.
  rewrite (map_ext _ (fun row => snd row)) by (intros [[? ?] ?]; reflexivity).
  rewrite map_snd_combine_long, length_combine, !column_stack_length,
    !linspace_samples_length, Nat.min_id.
  rewrite removelast_firstn_len. f_equal. lia.
Qed.

End Bodies.

(** ** The points of the regions *)

Lemma radians_0 : radians 0 = 0.
Proof. unfold radians. lra. Qed.

(** An ellipse that is not rotated: the points within the axis-parallel
    ellipse of semi-axes [|a|], [|b|] about [c]. *)
Lemma inside_upright (c p : Point.t) (a b : R) :
  a <> 0 -> b <> 0 ->
  inside (Rotate (Scale (Buffer c 1) a b) 0) p <->
  b * b * ((Point.x p - Point.x c) * (Point.x p - Point.x c))
  + a * a * ((Point.y p - Point.y c) * (Point.y p - Point.y c))
  <= a * a * (b * b).
Proof.
  intros Ha Hb. simpl. rewrite radians_0, cos_0, sin_0. split.
  - intros (q & (q0 & Hdisc & Hx & Hy) & Hpx & Hpy).
    set (u := Point.x q0 - Point.x c) in *.
    set (v := Point.y q0 - Point.y c) in *.
    replace (Point.x p - Point.x c) with (a * u) by lra.
    replace (Point.y p - Point.y c) with (b * v) by lra.
    assert (Hab : 0 <= a * a * (b * b)) by nra.
    assert (Huv : 0 <= 1 - (u * u + v * v)) by lra.
    pose proof (Rmult_le_pos _ _ Hab Huv). lra.
  - intros H.
    set (u := (Point.x p - Point.x c) / a).
    set (v := (Point.y p - Point.y c) / b).
    assert (Hu : Point.x p - Point.x c = a * u) by (unfold u; field; exact Ha).
    assert (Hv : Point.y p - Point.y c = b * v) by (unfold v; field; exact Hb).
    exists p. split; [|lra].
    exists (Point.mk (Point.x c + u) (Point.y c + v)). simpl.
    split; [|lra].
    rewrite Hu, Hv in H.
    assert (Hab : 0 < a * a * (b * b)).
    { apply Rmult_lt_0_compat; nra. }
    apply (Rmult_le_reg_l (a * a * (b * b))); [exact Hab|]. lra.
Qed.

(** With both factors zero the shape is its centre alone. *)
Lemma inside_collapsed (c p : Point.t) :
  inside (Rotate (Scale (Buffer c 1) 0 0) 0) p -> p = c.
Proof.
  simpl. rewrite radians_0, cos_0, sin_0.
  intros (q & (q0 & _ & Hx & Hy) & Hpx & Hpy).
  destruct p as [px py], c as [cx cy]. simpl in *. f_equal; lra.
Qed.

(** The centre of the region of an [Ellipse] and of the two ellipses of an
    [EllipticRing]. *)
Lemma Ellipse_center (e : Ellipse.t) :
  center (Ellipse.shape e) =
  Point.mk (Point.x (Ellipse.pos e) - 1 / 2) (Point.y (Ellipse.pos e) - 1 / 2).
Proof. reflexivity. Qed.

Lemma EllipticRing_center (e : EllipticRing.t) :
  center (EllipticRing.outer e) = EllipticRing.pos e
  /\ center (EllipticRing.inner e) = EllipticRing.pos e.
Proof. destruct e as [[px py] ? ? ? ?]. split; reflexivity. Qed.

Lemma py_last_of_nth_error {A} (l : list A) (v : A) :
  l <> [] -> nth_error l (List.length l - 1) = Some v -> py_last l = ok v.
Proof.
  destruct l as [|w l] using rev_ind; [congruence|].
  intros _. rewrite length_app. simpl.
  replace (List.length l + 1 - 1)%nat with (List.length l) by lia.
  rewrite nth_error_app2, Nat.sub_diag by lia. simpl.
  intros H. injection H as ->. apply py_last_app.
Qed.

Lemma ring_eq (p : Point.t) (a0 a1 b0 b1 a0' a1' b0' b1' t : R) (v : pyval) :
  a0 = a0' -> a1 = a1' -> b0 = b0' -> b1 = b1' ->
  RRing (EllipticRing.mk p (a0, a1) (b0, b1) t v)
  = RRing (EllipticRing.mk p (a0', a1') (b0', b1') t v).
Proof. intros -> -> -> ->. reflexivity. Qed.

(** ** Flux *)

Section FluxFacts.

Import Binary.

Variable area : Polygon -> R.

(** The silhouette of a background body of uniform brightness: its one
    ellipse. *)
Lemma silhouette_scalar (s : Binary.t) (v : R) :
  EllipticalBody.brightness (bodyB s) = VNum v ->
  silhouette s =
  ok (REllipse (Ellipse.mk (EllipticalBody.pos (bodyB s))
                  (EllipticalBody.a (bodyB s)) (EllipticalBody.b (bodyB s))
                  (EllipticalBody.theta (bodyB s)) (VNum v))).
Proof.
  intros H. unfold silhouette. rewrite (bodies_scalar _ v H). reflexivity.
Qed.

(** The silhouette of a background body with a profile of [n >= 2]
    values: ring [n - 2], between samples [n - 2] and [n - 1]. *)
Lemma silhouette_profile (s : Binary.t) (l : list pyval) (v : pyval) :
  EllipticalBody.brightness (bodyB s) = VList l ->
  (2 <= List.length l)%nat ->
  nth_error l (List.length l - 2) = Some v ->
  silhouette s =
  ok (RRing (EllipticRing.mk (EllipticalBody.pos (bodyB s))
               (interpolate (EllipticalBody.a (bodyB s)) 0 (List.length l)
                  (List.length l - 2),
                interpolate (EllipticalBody.a (bodyB s)) 0 (List.length l)
                  (S (List.length l - 2)))
               (interpolate (EllipticalBody.b (bodyB s)) 0 (List.length l)
                  (List.length l - 2),
                interpolate (EllipticalBody.b (bodyB s)) 0 (List.length l)
                  (S (List.length l - 2)))
               (EllipticalBody.theta (bodyB s)) v)).
Proof.
  intros H Hn Hv. unfold silhouette. rewrite (bodies_profile _ l H). simpl.
  apply py_last_of_nth_error.
  - intros E. apply (f_equal (@List.length _)) in E.
    rewrite rings_of_length in E. simpl in E. lia.
  - rewrite rings_of_length.
    replace (List.length l - 1 - 1)%nat with (List.length l - 2)%nat by lia.
    apply rings_of_nth; [exact Hn | lia | exact Hv].
Qed.

(** With three values or more the silhouette is smaller than the body: its
    outer semi-major axis is the semi-axis divided by [n - 1]. *)
Lemma silhouette_profile_shrunk (s : Binary.t) (l : list pyval) (v : pyval) :
  EllipticalBody.brightness (bodyB s) = VList l ->
  (3 <= List.length l)%nat ->
  nth_error l (List.length l - 2) = Some v ->
  0 < EllipticalBody.a (bodyB s) ->
  exists e,
    silhouette s = ok (RRing e)
    /\ EllipticRing.max (EllipticRing.a_range e)
       = EllipticalBody.a (bodyB s) / INR (List.length l - 1)
    /\ EllipticRing.max (EllipticRing.a_range e) < EllipticalBody.a (bodyB s).
Proof.
  intros H Hn Hv Ha.
  rewrite (silhouette_profile s l v H) by (try exact Hv; lia).
  eexists. split; [reflexivity|].
  unfold EllipticRing.max. cbn [EllipticRing.a_range fst snd].
  rewrite interpolate_before_last, interpolate_last by lia.
  assert (Hd : 2 <= INR (List.length l - 1)).
  { change 2 with (INR 2). apply le_INR. lia. }
  assert (Hq : 0 < EllipticalBody.a (bodyB s) / INR (List.length l - 1)).
  { apply Rdiv_lt_0_compat; lra. }
  rewrite Rmax_left by lra. split; [reflexivity|].
  apply (Rmult_lt_reg_r (INR (List.length l - 1))); [lra|].
  unfold Rdiv. rewrite Rmult_assoc, Rinv_l by lra. nra.
Qed.

(** A system of two bodies of uniform brightness: the three fluxes. *)
Lemma mag_of_scalar (body : EllipticalBody.t) (v : R) :
  EllipticalBody.brightness body = VNum v ->
  mag_of area body =
  ok (0 + area (Ellipse.geometry
                  (Ellipse.mk (EllipticalBody.pos body) (EllipticalBody.a body)
                     (EllipticalBody.b body) (EllipticalBody.theta body)
                     (VNum v))) * v).
Proof.
  intros H. unfold mag_of, brtns_of. rewrite (bodies_scalar _ v H), H.
  reflexivity.
Qed.

Lemma get_total_mag_scalar (s : Binary.t) (v w : R) :
  EllipticalBody.brightness (bodyA s) = VNum v ->
  EllipticalBody.brightness (bodyB s) = VNum w ->
  exists mag, get_total_mag area s = ok mag.
Proof.
  intros HA HB. unfold get_total_mag, get_mag_B, brtns_of.
  rewrite (mag_of_scalar _ w HB), (bodies_scalar _ v HA), HA. simpl.
  rewrite (silhouette_scalar _ w HB). simpl. eexists. reflexivity.
Qed.

End FluxFacts.

(** ** The simulation *)

Section SimulateFacts.

Import Binary.

Variable area : Polygon -> R.

Lemma frames_nil (it : nat) (ret : list (nat * R)) (s : Binary.t) :
  frames area it [] ret s = (ok ret, s).
Proof. reflexivity. Qed.

Lemma frames_cons (it : nat) (sample : R * R * R) (rest : list (R * R * R))
    (ret : list (nat * R)) (s : Binary.t) :
  frames area it (sample :: rest) ret s =
  match get_total_mag area (place sample s) with
  | inl e => (inl e, place sample s)
  | inr mag => frames area (S it) rest (ret ++ [(it, mag)]) (place sample s)
  end.
Proof.
  destruct sample as [[x y] ang]. simpl. unfold mbind, mutate, reading. simpl.
  destruct (get_total_mag area _); reflexivity.
Qed.

Lemma simulate_unfold (to : Point.t) (angle : R) (step : Z) (s : Binary.t) :
  simulate area to angle step s =
  match samples_of s to angle step with
  | inl e => (inl e, s)
  | inr (samples, _) => frames area 0 samples [] s
  end.
Proof.
  unfold simulate, mbind, reading.
  destruct (samples_of s to angle step) as [e|[samples lims]]; reflexivity.
Qed.

(** Fewer than one step: [linspace] raises for a negative count, and for
    a count of zero [max] is called on an empty sequence. *)
Lemma samples_of_rejects (s : Binary.t) (to : Point.t) (angle : R) (step : Z) :
  (step < 1)%Z -> samples_of s to angle step = raise ValueError.
Proof.
  intros H. unfold samples_of.
  destruct (Z.eq_dec step 0) as [->|Hne].
  - reflexivity.
  - rewrite linspace_negative by lia. reflexivity.
Qed.

(** One step: the one sample is the present pose of [bodyB]. *)
Lemma samples_of_single (s : Binary.t) (to : Point.t) (angle : R) :
  exists lims,
    samples_of s to angle 1 =
    ok ([(Point.x (EllipticalBody.pos (bodyB s)),
          Point.y (EllipticalBody.pos (bodyB s)),
          EllipticalBody.theta (bodyB s))], lims).
Proof.
  unfold samples_of, linspace. simpl.
  change (Pos.to_nat 1) with 1%nat. rewrite !linspace_samples_one. simpl.
  eexists. reflexivity.
Qed.

Lemma place_present (s : Binary.t) :
  place (Point.x (EllipticalBody.pos (bodyB s)),
         Point.y (EllipticalBody.pos (bodyB s)),
         EllipticalBody.theta (bodyB s)) s = s.
Proof.
  destruct s as [p [[qx qy] qa qb qt qv] | [[qx qy] qa qb qt qv]];
    reflexivity.
Qed.

Lemma simulate_single_step (to : Point.t) (angle : R) (s : Binary.t) :
  simulate area to angle 1 s =
  (match get_total_mag area s with
   | inl e => inl e
   | inr mag => ok [(0%nat, mag)]
   end, s).
Proof.
  rewrite simulate_unfold.
  destruct (samples_of_single s to angle) as [lims ->]. unfold ok.
  rewrite frames_cons, place_present.
  destruct (get_total_mag area s); reflexivity.
Qed.

(** *** What a run can change *)

Lemma same_shape_refl (q : EllipticalBody.t) : same_shape q q.
Proof. repeat split. Qed.

Lemma same_shape_trans (q q' q'' : EllipticalBody.t) :
  same_shape q q' -> same_shape q' q'' -> same_shape q q''.
Proof.
  unfold same_shape. intros (? & ? & ?) (? & ? & ?).
  repeat split; congruence.
Qed.

Lemma pose_only_refl (s : Binary.t) : pose_only s s.
Proof. destruct s; simpl; auto using same_shape_refl. Qed.

Lemma pose_only_trans (s s' s'' : Binary.t) :
  pose_only s s' -> pose_only s' s'' -> pose_only s s''.
Proof.
  destruct s, s', s''; simpl; try tauto.
  - intros [-> H] [-> H']. eauto using same_shape_trans.
  - apply same_shape_trans.
Qed.

Lemma pose_only_place (sample : R * R * R) (s : Binary.t) :
  pose_only s (place sample s).
Proof.
  destruct sample as [[x y] ang], s; simpl; repeat split.
Qed.

Lemma frames_pose_only (samples : list (R * R * R)) (it : nat)
    (ret : list (nat * R)) (s : Binary.t) :
  pose_only s (snd (frames area it samples ret s)).
Proof.
  revert it ret s. induction samples as [|sample rest IH]; intros it ret s.
  - apply pose_only_refl.
  - rewrite frames_cons.
    destruct (get_total_mag area (place sample s)) as [e|mag].
    + apply pose_only_place.
    + eapply pose_only_trans; [apply pose_only_place | apply IH].
Qed.

Lemma simulate_pose_only (to : Point.t) (angle : R) (step : Z) (s : Binary.t) :
  pose_only s (snd (simulate area to angle step s)).
Proof.
  rewrite simulate_unfold.
  destruct (samples_of s to angle step) as [e|[samples lims]].
  - apply pose_only_refl.
  - apply frames_pose_only.
Qed.

End SimulateFacts.

Section MoreFluxFacts.

Import Binary.

Variable area : Polygon -> R.

(** The total flux of a system whose first body has uniform brightness. *)
Lemma get_total_mag_uniform_front (s : Binary.t) (v : R) (sil : Region) :
  EllipticalBody.brightness (bodyA s) = VNum v ->
  silhouette s = ok sil ->
  get_total_mag area s =
  (b_mag <- get_mag_B area s ;;
   ok (b_mag
       + (0 + area (Difference
                      (Ellipse.geometry
                         (Ellipse.mk (EllipticalBody.pos (bodyA s))
                            (EllipticalBody.a (bodyA s))
                            (EllipticalBody.b (bodyA s))
                            (EllipticalBody.theta (bodyA s)) (VNum v)))
                      (geometry sil)) * v)))%res.
Proof.
  intros HA Hsil. unfold get_total_mag, brtns_of.
  destruct (get_mag_B area s) as [e|b_mag]; [reflexivity|].
  rewrite (bodies_scalar _ v HA), HA. simpl. rewrite Hsil. reflexivity.
Qed.

Lemma place_brightness (sample : R * R * R) (s : Binary.t) :
  EllipticalBody.brightness (bodyA (place sample s))
  = EllipticalBody.brightness (bodyA s)
  /\ EllipticalBody.brightness (bodyB (place sample s))
     = EllipticalBody.brightness (bodyB s).
Proof. destruct sample as [[x y] ang], s; split; reflexivity. Qed.

(** A run on two bodies of uniform brightness raises nothing: every sample
    is applied. *)
Lemma frames_uniform (v w : R) (samples : list (R * R * R)) :
  forall (it : nat) (ret : list (nat * R)) (s : Binary.t),
    EllipticalBody.brightness (bodyA s) = VNum v ->
    EllipticalBody.brightness (bodyB s) = VNum w ->
    exists r,
      frames area it samples ret s =
      (ok r, fold_left (fun s' sample => place sample s') samples s).
Proof.
  induction samples as [|sample rest IH]; intros it ret s HA HB.
  - exists ret. reflexivity.
  - rewrite frames_cons.
    destruct (place_brightness sample s) as [EA EB].
    destruct (get_total_mag_scalar area (place sample s) v w) as [mag ->];
      [congruence | congruence |].
    apply IH; congruence.
Qed.

Lemma linspace_samples_two (start stop : R) :
  linspace_samples start stop 2 = [start; stop].
Proof.
  unfold linspace_samples. simpl. f_equal. lra.
Qed.

Lemma samples_of_two (s : Binary.t) (to : Point.t) (angle : R) :
  exists lims,
    samples_of s to angle 2 =
    ok ([(Point.x (EllipticalBody.pos (bodyB s)),
          Point.y (EllipticalBody.pos (bodyB s)),
          EllipticalBody.theta (bodyB s));
         (Point.x to, Point.y to, angle)], lims).
Proof.
  unfold samples_of, linspace. simpl.
  change (Pos.to_nat 2) with 2%nat. rewrite !linspace_samples_two. simpl.
  eexists. reflexivity.
Qed.

(** Two steps on two bodies of uniform brightness: the object [bodyB] ends
    at the target. *)
Lemma simulate_two_steps_uniform (v w : R) (s : Binary.t) (to : Point.t)
    (angle : R) :
  EllipticalBody.brightness (bodyA s) = VNum v ->
  EllipticalBody.brightness (bodyB s) = VNum w ->
  snd (simulate area to angle 2 s) = place (Point.x to, Point.y to, angle) s.
Proof.
  intros HA HB. rewrite simulate_unfold.
  destruct (samples_of_two s to angle) as [lims ->]. unfold ok.
  destruct (frames_uniform v w
              [(Point.x (EllipticalBody.pos (bodyB s)),
                Point.y (EllipticalBody.pos (bodyB s)),
                EllipticalBody.theta (bodyB s));
               (Point.x to, Point.y to, angle)] 0 [] s HA HB) as [r ->].
  cbn [fold_left snd]. rewrite place_present. reflexivity.
Qed.

End MoreFluxFacts.

(** * The claims *)

(** C1. [get_total_mag] occults the first body with
    [self.bodyB.bodies[-1]].  Evaluated on a system whose second body
    [shaded] has radius 4 and a profile of three values: [bodies] has the
    rings [4, 2] and [2, 0], and the last one, the innermost ring of outer
    semi-axes 2, is the silhouette the flux is computed with.  The point
    (3, 0) lies within the outer boundary of [shaded] and is not occulted. *)
Theorem C1_silhouette_is_innermost_ring :
  let s := Binary.Two disc shaded in
  let sil := RRing (EllipticRing.mk origin (2, 0) (2, 0) 0 (VNum (1 / 10))) in
  Binary.silhouette s = ok sil
  /\ (forall area,
        Binary.get_total_mag area s =
        (b_mag <- Binary.get_mag_B area s ;;
         ok (b_mag
             + (0 + area (Difference
                            (Ellipse.geometry
                               (Ellipse.mk origin 3 3 0 (VNum 1)))
                            (geometry sil)) * 1)))%res)
  /\ inside (Rotate (Scale (Buffer origin 1) 4 4) 0) (Point.mk 3 0)
  /\ ~ covers (geometry sil) (Point.mk 3 0).
Proof.
  intros s sil.
  assert (Hsil : Binary.silhouette s = ok sil).
  { unfold s, sil.
    rewrite (silhouette_profile _
               [VNum (1 / 10); VNum (1 / 10); VNum (1 / 10)] (VNum (1 / 10)));
      [ | reflexivity | simpl; lia | reflexivity ].
    simpl. unfold interpolate, origin. simpl.
    apply f_equal, ring_eq; lra. }
  split; [exact Hsil|]. split; [|split].
  - intros area.
    apply (get_total_mag_uniform_front area s 1 sil); [reflexivity | exact Hsil].
  - apply inside_upright; simpl; lra.
  - unfold sil. intros [Hout _]. revert Hout.
    unfold EllipticRing.geometry, EllipticRing.outer, EllipticRing.max.
    cbn [covers EllipticRing.pos EllipticRing.a_range EllipticRing.b_range
           EllipticRing.theta fst snd origin Point.x Point.y].
    replace (Rmax 2 0) with 2 by (symmetry; apply Rmax_left; lra).
    rewrite inside_upright by lra. simpl. lra.
Qed.

(** C2, as the code has it.  For a body whose brightness is a profile [l] of
    [n >= 2] values, [bodies] returns exactly [n - 1] rings; the range of
    each axis of ring [i] is the pair of samples [i] and [i + 1] of the
    linear interpolation from the semi-axis down to 0 across [n] samples,
    and the brightness of ring [i] is value [i] of the profile.  The rings
    take the first [n - 1] values in order; the last value of the profile is
    the brightness of no ring. *)
Theorem C2_rings_of_a_profile (self : EllipticalBody.t) (l : list pyval) :
  EllipticalBody.brightness self = VList l ->
  (2 <= List.length l)%nat ->
  exists rs,
    EllipticalBody.bodies self = ok rs
    /\ List.length rs = (List.length l - 1)%nat
    /\ (forall i v,
          (i < List.length l - 1)%nat -> nth_error l i = Some v ->
          nth_error rs i =
          Some (RRing (EllipticRing.mk (EllipticalBody.pos self)
                         (interpolate (EllipticalBody.a self) 0 (List.length l) i,
                          interpolate (EllipticalBody.a self) 0 (List.length l) (S i))
                         (interpolate (EllipticalBody.b self) 0 (List.length l) i,
                          interpolate (EllipticalBody.b self) 0 (List.length l) (S i))
                         (EllipticalBody.theta self) v)))
    /\ map region_brightness rs = removelast l.
Proof.
  intros H Hn. exists (rings_of self l). split; [|split; [|split]].
  - apply bodies_profile. exact H.
  - apply rings_of_length.
  - intros i v Hi Hv. apply rings_of_nth; [exact Hn | lia | exact Hv].
  - apply rings_of_brightness.
Qed.

Lemma C2_rings_of_a_profile_witness :
  EllipticalBody.brightness star = VList [VNum 1; VNum (9 / 10); VNum (8 / 10)]
  /\ (2 <= List.length [VNum 1; VNum (9 / 10); VNum (8 / 10)])%nat
  /\ exists rs,
       EllipticalBody.bodies star = ok rs
       /\ List.length rs = 2%nat
       /\ map region_brightness rs = [VNum 1; VNum (9 / 10)].
Proof.
  split; [reflexivity|]. split; [simpl; lia|].
  destruct (C2_rings_of_a_profile star [VNum 1; VNum (9 / 10); VNum (8 / 10)])
    as (rs & Hrs & Hlen & _ & Hbr); [reflexivity | simpl; lia |].
  exists rs. split; [exact Hrs|]. split; [exact Hlen | exact Hbr].
Defined.

(** C2 as stated fails: for the profile [1, 9/10, 8/10] the two rings have
    the brightness 1 and 9/10, and the value 8/10 is consumed by none. *)
Lemma C2_last_profile_value_unused :
  exists rs,
    EllipticalBody.bodies star = ok rs
    /\ List.length rs = 2%nat
    /\ map region_brightness rs <> [VNum 1; VNum (9 / 10); VNum (8 / 10)]
    /\ ~ In (VNum (8 / 10)) (map region_brightness rs).
Proof.
  exists (rings_of star [VNum 1; VNum (9 / 10); VNum (8 / 10)]).
  split; [apply bodies_profile; reflexivity|].
  split; [apply rings_of_length|].
  rewrite rings_of_brightness. simpl. split.
  - discriminate.
  - intros [H|[H|[]]]; injection H; lra.
Qed.

(** C3. The region derived from a body of uniform brightness, evaluated on
    [oval] (semi-axes 2 and 1, at the origin, not rotated): [geometry]
    buffers the point [(pos.x - 0.5, pos.y - 0.5)], so the ellipse is
    centred at (-1/2, -1/2) and not at the position of the body.  The vertex
    (2, 0) of the ellipse about the position is outside the region, and the
    point (-5/2, -1/2), which that ellipse does not contain, is inside. *)
Theorem C3_ellipse_off_center :
  exists e,
    EllipticalBody.bodies oval = ok [REllipse e]
    /\ Ellipse.a e = 2 /\ Ellipse.b e = 1 /\ Ellipse.theta e = 0
    /\ center (Ellipse.shape e) = Point.mk (- (1 / 2)) (- (1 / 2))
    /\ center (Ellipse.shape e) <> EllipticalBody.pos oval
    /\ ~ covers (geometry (REllipse e)) (Point.mk 2 0)
    /\ covers (geometry (REllipse e)) (Point.mk (- (5 / 2)) (- (1 / 2))).
Proof.
  exists (Ellipse.mk origin 2 1 0 (VNum 1)).
  split; [apply (bodies_scalar oval 1); reflexivity|].
  do 3 (split; [reflexivity|]).
  assert (Hc : center (Ellipse.shape (Ellipse.mk origin 2 1 0 (VNum 1)))
               = Point.mk (- (1 / 2)) (- (1 / 2))).
  { rewrite Ellipse_center. simpl. f_equal; lra. }
  split; [exact Hc|]. split; [|split].
  - rewrite Hc. unfold oval, origin. simpl. intros H. injection H. lra.
  - unfold geometry, Ellipse.geometry, Ellipse.shape.
    cbn [covers Ellipse.pos Ellipse.a Ellipse.b Ellipse.theta].
    rewrite inside_upright by lra. simpl. lra.
  - unfold geometry, Ellipse.geometry, Ellipse.shape.
    cbn [covers Ellipse.pos Ellipse.a Ellipse.b Ellipse.theta].
    rewrite inside_upright by lra. simpl. lra.
Qed.

(** C4. Two bodies that are disjoint by the distance of their positions,
    evaluated on [star] (radius 3, at the origin, a profile of three values)
    and [tno] (radius 5, at (81/10, 0), uniform): the positions are further
    apart than 3 + 5, yet the silhouette of [tno] is the ellipse centred at
    (76/10, -1/2), and the point (29/10, 0) of the outer ring of [star] lies
    within it.  The difference that [get_total_mag] takes the area of has
    lost that point. *)
Theorem C4_disjoint_bodies_overlap :
  let s := Binary.Two star tno in
  let ring := RRing (EllipticRing.mk origin (3, 3 / 2) (3, 3 / 2) 0 (VNum 1)) in
  let sil := REllipse (Ellipse.mk (Point.mk (81 / 10) 0) 5 5 0 (VNum (1 / 10))) in
  let p := Point.mk (29 / 10) 0 in
  (3 + 5) * (3 + 5) < dist2 (EllipticalBody.pos star) (EllipticalBody.pos tno)
  /\ (exists rs, EllipticalBody.bodies star = ok rs /\ nth_error rs 0 = Some ring)
  /\ Binary.silhouette s = ok sil
  /\ covers (geometry ring) p
  /\ covers (geometry sil) p
  /\ ~ covers (Difference (geometry ring) (geometry sil)) p.
Proof.
  intros s ring sil p.
  assert (Hring : covers (geometry ring) p).
  { unfold ring, p, geometry, EllipticRing.geometry, EllipticRing.outer,
      EllipticRing.inner, EllipticRing.max, EllipticRing.min.
    cbn [covers EllipticRing.pos EllipticRing.a_range EllipticRing.b_range
           EllipticRing.theta fst snd origin Point.x Point.y].
    replace (Rmax 3 (3 / 2)) with 3 by (symmetry; apply Rmax_left; lra).
    replace (Rmin 3 (3 / 2)) with (3 / 2) by (symmetry; apply Rmin_right; lra).
    rewrite !inside_upright by lra. simpl. lra. }
  assert (Hsil : covers (geometry sil) p).
  { unfold sil, p, geometry, Ellipse.geometry, Ellipse.shape.
    cbn [covers Ellipse.pos Ellipse.a Ellipse.b Ellipse.theta].
    rewrite inside_upright by lra. simpl. lra. }
  split; [unfold dist2, star, tno, origin; simpl; lra|].
  split; [|split; [|split; [exact Hring | split; [exact Hsil|]]]].
  - exists (rings_of star [VNum 1; VNum (9 / 10); VNum (8 / 10)]).
    split; [apply bodies_profile; reflexivity|].
    rewrite (rings_of_nth star _ 0 (VNum 1));
      [ | simpl; lia | simpl; lia | reflexivity ].
    unfold ring, interpolate, star, origin. simpl.
    apply f_equal, ring_eq; lra.
  - apply (silhouette_scalar s (1 / 10)). reflexivity.
  - intros [_ Hnot]. exact (Hnot Hsil).
Qed.

(** C5, as the code has it.  A run of one step has the present pose of the
    second body as its only sample: when the flux of the system is defined,
    the result is the one entry of index 0 with the flux of the state before
    the run; when it is not, the run raises what the flux raises.  Either
    way the system after the run is the system before it: the second body
    is where it was and not at the target. *)
Theorem C5_single_step (area : Polygon -> R) (s : Binary.t) (to : Point.t)
    (angle : R) :
  Binary.simulate area to angle 1 s =
  (match Binary.get_total_mag area s with
   | inl e => inl e
   | inr mag => ok [(0%nat, mag)]
   end, s).
Proof. apply simulate_single_step. Qed.

(** C5 as stated fails: [tno] is at (81/10, 0); after a run of one step
    towards (-15, 0) it is not at (-15, 0). *)
Lemma C5_target_not_reached :
  ~ (forall area : Polygon -> R,
       EllipticalBody.pos
         (Binary.bodyB
            (snd (Binary.simulate area (Point.mk (- 15) 0) 0 1
                    (Binary.Two disc tno))))
       = Point.mk (- 15) 0).
Proof.
  intros H. specialize (H nested_area).
  rewrite simulate_single_step in H. simpl in H. injection H. lra.
Qed.

(** C6. A run of fewer than one step raises before the loop: the system is
    left as it was, and there is no result. *)
Theorem C6_invalid_steps_rejected (area : Polygon -> R) (s : Binary.t)
    (to : Point.t) (angle : R) (step : Z) :
  (step < 1)%Z ->
  Binary.simulate area to angle step s = (raise ValueError, s).
Proof.
  intros H. rewrite simulate_unfold, samples_of_rejects by exact H.
  reflexivity.
Qed.

Lemma C6_invalid_steps_rejected_witness :
  (0 < 1)%Z
  /\ Binary.simulate nested_area (Point.mk (- 15) 0) 0 0 (Binary.Two star tno)
     = (raise ValueError, Binary.Two star tno).
Proof.
  split; [lia|]. apply C6_invalid_steps_rejected. lia.
Defined.

(** C7, as the code has it.  The constructors of [Ellipse] and
    [EllipticRing] store what they are given, whatever the sign of the
    semi-axes, and raise nothing.  An ellipse with a semi-axis 0 is scaled
    by the factor 0 and its exact area is 0. *)
Theorem C7_no_validation (pos : Point.t) (a b theta : R) (v : pyval)
    (a_range b_range : R * R) :
  Ellipse.init pos a b theta v = ok (Ellipse.mk pos a b theta v)
  /\ EllipticRing.init pos a_range b_range theta v
     = ok (EllipticRing.mk pos a_range b_range theta v)
  /\ shape_area (Ellipse.shape (Ellipse.mk pos 0 b theta v)) = 0
  /\ shape_area (Ellipse.shape (Ellipse.mk pos a 0 theta v)) = 0.
Proof.
  split; [reflexivity|]. split; [reflexivity|].
  simpl. rewrite Rmult_0_l, Rmult_0_r, Rabs_R0. split; lra.
Qed.

(** C7 as stated fails: an ellipse and a ring with the semi-axis -1 are
    constructed, and their [geometry] is the scaling by -1. *)
Lemma C7_negative_axis_accepted :
  - 1 < 0
  /\ (exists e,
        Ellipse.init origin (- 1) 1 0 (VNum 1) = ok e
        /\ Ellipse.a e = - 1
        /\ Ellipse.geometry e
           = Solid (Rotate
                      (Scale (Buffer (Point.mk (0 - 1 / 2) (0 - 1 / 2)) 1) (- 1) 1)
                      0))
  /\ (exists e,
        EllipticRing.init origin (- 1, - 1) (1, 1) 0 (VNum 1) = ok e
        /\ EllipticRing.a_range e = (- 1, - 1)).
Proof.
  split; [lra|]. split.
  - eexists. split; [reflexivity|]. split; reflexivity.
  - eexists. split; reflexivity.
Qed.

(** C8, as the code has it.  [bodies] inspects the type of the brightness
    and nothing else: when it is neither a [float] or [int] nor a [list] or
    array, [bodies] raises [ValueError].  Constructing the body raises
    nothing, and [move], [reshape] and [rotate] keep the brightness they
    find. *)
Theorem C8_brightness_type_checked (self : EllipticalBody.t) :
  is_number (EllipticalBody.brightness self) = false ->
  is_list (EllipticalBody.brightness self) = false ->
  EllipticalBody.bodies self = raise ValueError
  /\ EllipticalBody.init (EllipticalBody.pos self) (EllipticalBody.a self)
       (EllipticalBody.b self) (EllipticalBody.theta self)
       (EllipticalBody.brightness self) = ok self
  /\ (forall point relative,
        EllipticalBody.brightness (EllipticalBody.move self point relative)
        = EllipticalBody.brightness self)
  /\ (forall a b,
        EllipticalBody.brightness (EllipticalBody.reshape self a b)
        = EllipticalBody.brightness self)
  /\ (forall angle relative,
        EllipticalBody.brightness (EllipticalBody.rotate self angle relative)
        = EllipticalBody.brightness self).
Proof.
  intros Hn Hl. split; [|split; [|split; [|split]]].
  - unfold EllipticalBody.bodies.
    destruct (EllipticalBody.brightness self); simpl in *;
      try reflexivity; discriminate.
  - destruct self. reflexivity.
  - intros point [|]; reflexivity.
  - reflexivity.
  - intros angle [|]; reflexivity.
Qed.

Lemma C8_brightness_type_checked_witness :
  is_number (EllipticalBody.brightness tupled) = false
  /\ is_list (EllipticalBody.brightness tupled) = false
  /\ EllipticalBody.bodies tupled = raise ValueError.
Proof.
  split; [reflexivity|]. split; [reflexivity|].
  apply (C8_brightness_type_checked tupled); reflexivity.
Defined.

(** C8 as stated fails: a list of strings is neither a number nor a numeric
    sequence, and [bodies] derives a ring from it without raising. *)
Lemma C8_list_of_strings_accepted :
  is_number (EllipticalBody.brightness lettered) = false
  /\ is_numeric_sequence (EllipticalBody.brightness lettered) = false
  /\ exists rs,
       EllipticalBody.bodies lettered = ok rs
       /\ map region_brightness rs = [VStr "x"].
Proof.
  split; [reflexivity|]. split; [reflexivity|].
  exists (rings_of lettered [VStr "x"; VStr "y"]).
  split; [apply bodies_profile; reflexivity|].
  apply rings_of_brightness.
Qed.

(** C10, as the code has it.  In a system built from two distinct objects, a
    run, whether it returns or raises, leaves the first body as it was and
    changes neither the semi-axes nor the brightness of the second; the
    three flux methods read the system and leave it as it is. *)
Theorem C10_frame (area : Polygon -> R) (p q : EllipticalBody.t)
    (to : Point.t) (angle : R) (step : Z) :
  let s' := snd (Binary.simulate area to angle step (Binary.Two p q)) in
  Binary.bodyA s' = p
  /\ EllipticalBody.a (Binary.bodyB s') = EllipticalBody.a q
  /\ EllipticalBody.b (Binary.bodyB s') = EllipticalBody.b q
  /\ EllipticalBody.brightness (Binary.bodyB s') = EllipticalBody.brightness q
  /\ (forall s,
        snd (Binary.reading (Binary.get_mag_A area) s) = s
        /\ snd (Binary.reading (Binary.get_mag_B area) s) = s
        /\ snd (Binary.reading (Binary.get_total_mag area) s) = s).
Proof.
  intros s'.
  pose proof (simulate_pose_only area to angle step (Binary.Two p q)) as H.
  fold s' in H. destruct s' as [p' q'|p']; simpl in H; [|contradiction].
  destruct H as [-> (Ha & Hb & Hv)]. simpl.
  repeat split; assumption.
Qed.

(** C10 as stated fails: in [Binary(disc, disc)] both attributes name one
    object, and a run of two steps towards (1, 0) moves the first body. *)
Lemma C10_one_object_twice :
  ~ (forall area : Polygon -> R,
       Binary.bodyA
         (snd (Binary.simulate area (Point.mk 1 0) 0 2 (Binary.Same disc)))
       = Binary.bodyA (Binary.Same disc)).
Proof.
  intros H. specialize (H nested_area).
  rewrite (simulate_two_steps_uniform nested_area 1 1) in H
    by reflexivity.
  simpl in H. unfold disc, origin in H. injection H. lra.
Qed.

(** ** The area of the polygon of an ellipse *)

Lemma PI_upper : PI <= 52 / 15.
Proof.
  pose proof (PI_ineq 1) as [_ H].
  change (2 * 1)%nat with 2%nat in H.
  cbn [sum_f_R0] in H. unfold tg_alt, PI_tg in H. simpl in H. lra.
Qed.

Lemma PI_lower : 3 < PI.
Proof. pose proof PI2_3_2. lra. Qed.

Lemma sin_cubic_bounds (x : R) :
  0 <= x -> x <= PI ->
  x - x * x * x / 6 <= sin x <= x - x * x * x / 6 + x * x * x * x * x / 120.
Proof.
  intros H0 H1. pose proof (sin_bound x 0 H0 H1) as [Hlo Hhi].
  change (2 * 0 + 1)%nat with 1%nat in Hlo.
  change (2 * (0 + 1))%nat with 2%nat in Hhi.
  unfold sin_approx in Hlo, Hhi. cbn [sum_f_R0] in Hlo, Hhi.
  unfold sin_term in Hlo, Hhi.
  change (2 * 0 + 1)%nat with 1%nat in Hlo, Hhi.
  change (2 * 1 + 1)%nat with 3%nat in Hlo, Hhi.
  change (2 * 2 + 1)%nat with 5%nat in Hhi.
  change (Factorial.fact 1) with 1%nat in Hlo, Hhi.
  change (Factorial.fact 3) with 6%nat in Hlo, Hhi.
  change (Factorial.fact 5) with 120%nat in Hhi.
  rewrite !INR_IZR_INZ in Hlo, Hhi. simpl in Hlo, Hhi.
  lra.
Qed.

(** The polygon of 64 vertices against the disc: short of it by more than
    one and less than two parts in a thousand. *)
Lemma unit_buffer_bounds :
  (1 - 2 / 1000) * PI <= 32 * sin (PI / 32) < (1 - 1 / 1000) * PI.
Proof.
  pose proof PI_upper as Hu. pose proof PI_lower as Hl.
  set (x := PI / 32).
  assert (Hx : PI = 32 * x) by (unfold x; lra).
  assert (Hx0 : 3 / 32 < x) by (unfold x; lra).
  assert (Hx1 : x <= 52 / 480) by (unfold x; lra).
  destruct (sin_cubic_bounds x ltac:(lra) ltac:(lra)) as [Hlo Hhi].
  rewrite Hx.
  assert (Hq0 : 9 / 1024 < x * x) by nra.
  assert (Hq1 : x * x <= (52 / 480) * (52 / 480)) by nra.
  split.
  - assert (x * (x * x) <= x * ((52 / 480) * (52 / 480))) by nra.
    nra.
  - assert (Hc : x * (9 / 1024) < x * (x * x)) by nra.
    assert (Hf : x * x * x * x * x
                 <= x * ((52 / 480) * (52 / 480) * ((52 / 480) * (52 / 480)))).
    { assert (x * x * (x * x)
              <= (52 / 480) * (52 / 480) * ((52 / 480) * (52 / 480))) by nra.
      nra. }
    nra.
Qed.

Lemma buffer_area_unit : buffer_area 1 = 32 * sin (PI / 32).
Proof.
  unfold buffer_area, quad_segs. rewrite INR_IZR_INZ. simpl.
  replace (2 * 16) with 32 by lra. lra.
Qed.

Lemma Ellipse_polygon_area (e : Ellipse.t) :
  polygon_area (Ellipse.shape e)
  = Rabs (Ellipse.a e * Ellipse.b e) * (32 * sin (PI / 32)).
Proof.
  unfold Ellipse.shape. cbn [polygon_area]. rewrite buffer_area_unit.
  reflexivity.
Qed.

(** C9, as the code has it.  For semi-axes [a, b >= 0] the area of the
    polygon that [Ellipse.geometry] builds is [32 * sin (PI / 32) * a * b],
    the area of the default buffer of 64 vertices scaled by [a] and [b]: it
    is within two parts in a thousand of [PI * a * b], and it is the same
    for every position and every rotation angle, also after [move] and
    [rotate]. *)
Theorem C9_ellipse_area (pos : Point.t) (a b theta : R) (v : pyval) :
  0 <= a -> 0 <= b ->
  polygon_area (Ellipse.shape (Ellipse.mk pos a b theta v))
  = 32 * sin (PI / 32) * (a * b)
  /\ Rabs (polygon_area (Ellipse.shape (Ellipse.mk pos a b theta v))
           - PI * a * b)
     <= 2 / 1000 * (PI * a * b)
  /\ (forall pos' theta',
        polygon_area (Ellipse.shape (Ellipse.mk pos' a b theta' v))
        = polygon_area (Ellipse.shape (Ellipse.mk pos a b theta v)))
  /\ (forall point angle relative relative',
        polygon_area
          (Ellipse.shape
             (Ellipse.rotate
                (Ellipse.move (Ellipse.mk pos a b theta v) point relative)
                angle relative'))
        = polygon_area (Ellipse.shape (Ellipse.mk pos a b theta v))).
Proof.
  intros Ha Hb.
  assert (Hab : 0 <= a * b) by (apply Rmult_le_pos; assumption).
  assert (Harea : forall pos' theta',
             polygon_area (Ellipse.shape (Ellipse.mk pos' a b theta' v))
             = 32 * sin (PI / 32) * (a * b)).
  { intros pos' theta'. rewrite Ellipse_polygon_area. simpl.
    rewrite Rabs_pos_eq by exact Hab. ring. }
  split; [apply Harea|]. split; [|split].
  - rewrite Harea. destruct unit_buffer_bounds as [Hlo Hhi].
    rewrite Rabs_left1 by nra. nra.
  - intros pos' theta'. rewrite !Harea. reflexivity.
  - intros point angle [|] [|]; unfold Ellipse.rotate, Ellipse.move;
      cbn [Ellipse.pos Ellipse.a Ellipse.b Ellipse.theta Ellipse.brightness];
      rewrite !Harea; reflexivity.
Qed.

Lemma C9_ellipse_area_witness :
  0 <= 3 /\ 0 <= 3
  /\ polygon_area (Ellipse.shape (Ellipse.mk origin 3 3 0 (VNum 1)))
     = 32 * sin (PI / 32) * (3 * 3)
  /\ Rabs (polygon_area (Ellipse.shape (Ellipse.mk origin 3 3 0 (VNum 1)))
           - PI * 3 * 3)
     <= 2 / 1000 * (PI * 3 * 3).
Proof.
  split; [lra|]. split; [lra|].
  destruct (C9_ellipse_area origin 3 3 0 (VNum 1)) as (H1 & H2 & _);
    [lra | lra |].
  split; [exact H1 | exact H2].
Defined.

(** C9 as stated fails for the tolerance of one part in a thousand that the
    specification names: the polygon of the unit circle, with semi-axes 1
    and 1, is further than that from [PI]. *)
Lemma C9_not_within_one_per_mille :
  1 / 1000 * (PI * 1 * 1)
  < Rabs (polygon_area (Ellipse.shape (Ellipse.mk origin 1 1 0 (VNum 1)))
          - PI * 1 * 1).
Proof.
  rewrite Ellipse_polygon_area. simpl.
  destruct unit_buffer_bounds as [Hlo Hhi].
  replace (Rabs (1 * 1)) with 1 by (rewrite Rabs_pos_eq; lra).
  rewrite Rabs_left1 by lra. lra.
Qed.

(** * Further properties *)

(** ** The regions of a body *)

Lemma rings_of_nth_inv (self : EllipticalBody.t) (l : list pyval) (i : nat)
    (r : Region) :
  nth_error (rings_of self l) i = Some r ->
  (S i < List.length l)%nat
  /\ exists v,
       nth_error l i = Some v
       /\ r = RRing (EllipticRing.mk (EllipticalBody.pos self)
                       (interpolate (EllipticalBody.a self) 0 (List.length l) i,
                        interpolate (EllipticalBody.a self) 0 (List.length l) (S i))
                       (interpolate (EllipticalBody.b self) 0 (List.length l) i,
                        interpolate (EllipticalBody.b self) 0 (List.length l) (S i))
                       (EllipticalBody.theta self) v).
Proof.
  intros H.
  assert (Hi : (i < List.length (rings_of self l))%nat).
  { apply nth_error_Some. rewrite H. discriminate. }
  rewrite rings_of_length in Hi.
  split; [lia|].
  destruct (nth_error l i) as [v|] eqn:Hv.
  - exists v. split; [reflexivity|].
    rewrite (rings_of_nth self l i v) in H by (try exact Hv; lia).
    injection H as <-. reflexivity.
  - apply nth_error_None in Hv. lia.
Qed.

(** X1. A profile of fewer than two values: [bodies] raises nothing and
    returns no region. *)
Theorem X1_short_profile_no_region (self : EllipticalBody.t) (l : list pyval) :
  EllipticalBody.brightness self = VList l ->
  (List.length l <= 1)%nat ->
  EllipticalBody.bodies self = ok [].
Proof.
  intros H Hn. rewrite (bodies_profile self l H).
  assert (E : List.length (rings_of self l) = 0%nat)
    by (rewrite rings_of_length; lia).
  apply length_zero_iff_nil in E. rewrite E. reflexivity.
Qed.

Lemma X1_short_profile_no_region_witness :
  EllipticalBody.brightness (EllipticalBody.mk origin 3 3 0 (VList [VNum 1]))
  = VList [VNum 1]
  /\ (List.length [VNum 1] <= 1)%nat
  /\ EllipticalBody.bodies (EllipticalBody.mk origin 3 3 0 (VList [VNum 1]))
     = ok [].
Proof.
  split; [reflexivity|]. split; [simpl; lia|].
  apply (X1_short_profile_no_region _ [VNum 1]); [reflexivity | simpl; lia].
Defined.

(** X2. Every region that [bodies] derives has the position and the
    orientation of the body, whether the body has one ellipse or rings. *)
Theorem X2_regions_share_pose (self : EllipticalBody.t) (rs : list Region) :
  EllipticalBody.bodies self = ok rs ->
  Forall (fun r => region_pos r = EllipticalBody.pos self
                   /\ region_theta r = EllipticalBody.theta self) rs.
Proof.
  intros H. destruct (EllipticalBody.brightness self) as [v|?| |l|?] eqn:Hv;
    try (unfold EllipticalBody.bodies in H; rewrite Hv in H; discriminate).
  - rewrite (bodies_scalar self v Hv) in H. injection H as <-.
    constructor; [split; reflexivity | constructor].
  - rewrite (bodies_profile self l Hv) in H. injection H as <-.
    apply Forall_forall. intros r Hr.
    apply In_nth_error in Hr. destruct Hr as [i Hi].
    apply rings_of_nth_inv in Hi. destruct Hi as (_ & v & _ & ->).
    split; reflexivity.
Qed.

Lemma X2_regions_share_pose_witness :
  exists rs,
    EllipticalBody.bodies star = ok rs
    /\ Forall (fun r => region_pos r = EllipticalBody.pos star
                        /\ region_theta r = EllipticalBody.theta star) rs.
Proof.
  exists (rings_of star [VNum 1; VNum (9 / 10); VNum (8 / 10)]).
  split; [apply bodies_profile; reflexivity|].
  apply (X2_regions_share_pose star). apply bodies_profile. reflexivity.
Defined.

Lemma interpolate_first (a stop : R) (n : nat) : interpolate a stop n 0 = a.
Proof. unfold interpolate, Rdiv. simpl. ring. Qed.

Lemma interpolate_down (a : R) (n i : nat) :
  (2 <= n)%nat -> 0 <= a ->
  interpolate a 0 n (S i) <= interpolate a 0 n i.
Proof.
  intros Hn Ha. unfold interpolate. rewrite S_INR.
  assert (Hd : 0 < INR (n - 1)) by (apply lt_0_INR; lia).
  assert (Hq : 0 <= a / INR (n - 1)).
  { apply Rmult_le_pos; [exact Ha | left; apply Rinv_0_lt_compat; exact Hd]. }
  unfold Rdiv in *. nra.
Qed.

(** X3. The rings of a profile of [n >= 2] values on a body of semi-axes
    [a, b >= 0] tile the ellipse of the body: the outer ellipse of the first
    ring is the ellipse of semi-axes [a], [b] about the position, the inner
    ellipse of a ring is the outer ellipse of the next one, and the inner
    ellipse of the last ring is scaled by 0. *)
Theorem X3_rings_tile (self : EllipticalBody.t) (l : list pyval) :
  EllipticalBody.brightness self = VList l ->
  (2 <= List.length l)%nat ->
  0 <= EllipticalBody.a self -> 0 <= EllipticalBody.b self ->
  exists rs,
    EllipticalBody.bodies self = ok rs
    /\ (forall e, nth_error rs 0 = Some (RRing e) ->
          EllipticRing.outer e
          = Rotate (Scale (Buffer (Point.mk (Point.x (EllipticalBody.pos self))
                                     (Point.y (EllipticalBody.pos self))) 1)
                      (EllipticalBody.a self) (EllipticalBody.b self))
              (EllipticalBody.theta self))
    /\ (forall i e e',
          nth_error rs i = Some (RRing e) ->
          nth_error rs (S i) = Some (RRing e') ->
          EllipticRing.inner e = EllipticRing.outer e')
    /\ (forall e, nth_error rs (List.length l - 2) = Some (RRing e) ->
          EllipticRing.inner e
          = Rotate (Scale (Buffer (Point.mk (Point.x (EllipticalBody.pos self))
                                     (Point.y (EllipticalBody.pos self))) 1)
                      0 0)
              (EllipticalBody.theta self)).
Proof.
  intros H Hn Ha Hb. exists (rings_of self l).
  split; [apply bodies_profile; exact H|].
  assert (Hmax : forall c i, 0 <= c ->
            Rmax (interpolate c 0 (List.length l) i)
                 (interpolate c 0 (List.length l) (S i))
            = interpolate c 0 (List.length l) i).
  { intros c i Hc. apply Rmax_left, interpolate_down; assumption. }
  assert (Hmin : forall c i, 0 <= c ->
            Rmin (interpolate c 0 (List.length l) i)
                 (interpolate c 0 (List.length l) (S i))
            = interpolate c 0 (List.length l) (S i)).
  { intros c i Hc. apply Rmin_right, interpolate_down; assumption. }
  split; [|split].
  - intros e He. apply rings_of_nth_inv in He.
    destruct He as (_ & v & _ & E). injection E as ->.
    unfold EllipticRing.outer, EllipticRing.max. simpl.
    rewrite !Hmax, !interpolate_first by assumption. reflexivity.
  - intros i e e' He He'.
    apply rings_of_nth_inv in He, He'.
    destruct He as (_ & v & _ & E), He' as (_ & v' & _ & E').
    injection E as ->. injection E' as ->.
    unfold EllipticRing.inner, EllipticRing.outer, EllipticRing.max,
      EllipticRing.min. simpl.
    rewrite !Hmax, !Hmin by assumption. reflexivity.
  - intros e He. apply rings_of_nth_inv in He.
    destruct He as (_ & v & _ & E). injection E as ->.
    unfold EllipticRing.inner, EllipticRing.min. simpl.
    rewrite !Hmin, !interpolate_last by assumption. reflexivity.
Qed.

Lemma X3_rings_tile_witness :
  EllipticalBody.brightness star = VList [VNum 1; VNum (9 / 10); VNum (8 / 10)]
  /\ (2 <= List.length [VNum 1; VNum (9 / 10); VNum (8 / 10)])%nat
  /\ 0 <= EllipticalBody.a star /\ 0 <= EllipticalBody.b star
  /\ exists rs,
       EllipticalBody.bodies star = ok rs
       /\ (forall i e e',
             nth_error rs i = Some (RRing e) ->
             nth_error rs (S i) = Some (RRing e') ->
             EllipticRing.inner e = EllipticRing.outer e').
Proof.
  split; [reflexivity|]. split; [simpl; lia|].
  split; [simpl; lra|]. split; [simpl; lra|].
  destruct (X3_rings_tile star [VNum 1; VNum (9 / 10); VNum (8 / 10)])
    as (rs & Hrs & _ & Htile & _);
    [reflexivity | simpl; lia | simpl; lra | simpl; lra |].
  exists rs. split; [exact Hrs | exact Htile].
Defined.

Lemma fold_left_Rplus_acc (l : list R) (acc : R) :
  fold_left Rplus l acc = acc + py_sum l.
Proof.
  unfold py_sum. revert acc. induction l as [|v l IH]; intros acc; simpl.
  - lra.
  - rewrite (IH (acc + v)), (IH (0 + v)). lra.
Qed.

Lemma py_sum_cons (v : R) (l : list R) : py_sum (v :: l) = v + py_sum l.
Proof.
  unfold py_sum at 1. simpl. rewrite fold_left_Rplus_acc. lra.
Qed.

(** A sum of consecutive differences. *)
Lemma py_sum_telescope (L : list R) :
  forall u : nat -> R,
    (forall i, (i < List.length L)%nat -> nth_error L i = Some (u i - u (S i))) ->
    py_sum L = u 0%nat - u (List.length L).
Proof.
  induction L as [|v L IH]; intros u Hu.
  - unfold py_sum. simpl. lra.
  - rewrite py_sum_cons.
    rewrite (IH (fun i => u (S i))).
    + pose proof (Hu 0%nat ltac:(simpl; lia)) as H0. simpl in H0.
      injection H0 as ->. simpl. lra.
    + intros i Hi. apply (Hu (S i)). simpl. lia.
Qed.

Lemma interpolate_nonneg (a : R) (n i : nat) :
  (2 <= n)%nat -> (i <= n - 1)%nat -> 0 <= a -> 0 <= interpolate a 0 n i.
Proof.
  intros Hn Hi Ha. unfold interpolate.
  assert (Hd : 0 < INR (n - 1)) by (apply lt_0_INR; lia).
  assert (Hle : INR i <= INR (n - 1)) by (apply le_INR; exact Hi).
  assert (Hi0 : 0 <= INR i) by apply pos_INR.
  replace (a + INR i * (0 - a) / INR (n - 1))
    with (a * ((INR (n - 1) - INR i) / INR (n - 1))) by (field; lra).
  apply Rmult_le_pos; [exact Ha|].
  apply Rmult_le_pos; [lra | left; apply Rinv_0_lt_compat; exact Hd].
Qed.

Lemma ring_areas_sum (self : EllipticalBody.t) (l : list pyval) :
  (2 <= List.length l)%nat ->
  0 <= EllipticalBody.a self -> 0 <= EllipticalBody.b self ->
  py_sum (map (fun r => nested_area (geometry r)) (rings_of self l))
  = PI * EllipticalBody.a self * EllipticalBody.b self.
Proof.
  intros Hn Ha Hb.
  set (n := List.length l).
  set (u := fun i => PI * (interpolate (EllipticalBody.a self) 0 n i
                           * interpolate (EllipticalBody.b self) 0 n i)).
  rewrite (py_sum_telescope _ u).
  - rewrite length_map, rings_of_length. fold n. unfold u.
    replace (n - 1)%nat with (S (n - 2)) by lia.
    rewrite !interpolate_first, !interpolate_last by exact Hn. lra.
  - intros i Hi. rewrite length_map, rings_of_length in Hi. fold n in Hi.
    rewrite nth_error_map.
    destruct (nth_error l i) as [v|] eqn:Hv;
      [|apply nth_error_None in Hv; fold n in Hv; lia].
    rewrite (rings_of_nth self l i v) by (try exact Hv; fold n; lia).
    fold n. cbn [option_map]. f_equal.
    unfold geometry, EllipticRing.geometry, EllipticRing.outer,
      EllipticRing.inner, EllipticRing.max, EllipticRing.min, u.
    cbn [nested_area shape_area EllipticRing.a_range EllipticRing.b_range
           fst snd].
    pose proof (interpolate_down (EllipticalBody.a self) n i Hn Ha) as Hda.
    pose proof (interpolate_down (EllipticalBody.b self) n i Hn Hb) as Hdb.
    pose proof (interpolate_nonneg (EllipticalBody.a self) n i Hn
                  ltac:(lia) Ha) as Hpa.
    pose proof (interpolate_nonneg (EllipticalBody.b self) n i Hn
                  ltac:(lia) Hb) as Hpb.
    pose proof (interpolate_nonneg (EllipticalBody.a self) n (S i) Hn
                  ltac:(lia) Ha) as Hpa'.
    pose proof (interpolate_nonneg (EllipticalBody.b self) n (S i) Hn
                  ltac:(lia) Hb) as Hpb'.
    rewrite !Rmax_left, !Rmin_right by assumption.
    rewrite !Rabs_pos_eq by (apply Rmult_le_pos; assumption).
    ring.
Qed.

(** X4. The exact areas of the rings of a profile of [n >= 2] values on a
    body of semi-axes [a, b >= 0] add up to the area [PI * a * b] of the
    ellipse of the body. *)
Theorem X4_ring_areas_add_up (self : EllipticalBody.t) (l : list pyval) :
  EllipticalBody.brightness self = VList l ->
  (2 <= List.length l)%nat ->
  0 <= EllipticalBody.a self -> 0 <= EllipticalBody.b self ->
  exists rs,
    EllipticalBody.bodies self = ok rs
    /\ py_sum (map (fun r => nested_area (geometry r)) rs)
       = PI * EllipticalBody.a self * EllipticalBody.b self.
Proof.
  intros H Hn Ha Hb. exists (rings_of self l).
  split; [apply bodies_profile; exact H|].
  apply ring_areas_sum; assumption.
Qed.

Lemma X4_ring_areas_add_up_witness :
  EllipticalBody.brightness star = VList [VNum 1; VNum (9 / 10); VNum (8 / 10)]
  /\ (2 <= List.length [VNum 1; VNum (9 / 10); VNum (8 / 10)])%nat
  /\ 0 <= EllipticalBody.a star /\ 0 <= EllipticalBody.b star
  /\ exists rs,
       EllipticalBody.bodies star = ok rs
       /\ py_sum (map (fun r => nested_area (geometry r)) rs) = PI * 3 * 3.
Proof.
  split; [reflexivity|]. split; [simpl; lia|].
  split; [simpl; lra|]. split; [simpl; lra|].
  apply (X4_ring_areas_add_up star [VNum 1; VNum (9 / 10); VNum (8 / 10)]);
    [reflexivity | simpl; lia | simpl; lra | simpl; lra].
Defined.

(** ** When the fluxes are defined *)

Lemma mapM_ext {A B} (f g : A -> res B) (l : list A) :
  (forall v, f v = g v) -> mapM f l = mapM g l.
Proof.
  intros H. induction l as [|v l IH]; simpl; [reflexivity|].
  rewrite H, IH. reflexivity.
Qed.

Lemma mapM_py_mul {A} (f : A -> R) (pairs : list (A * pyval)) :
  mapM (fun '(b, br) => py_mul (f b) br) pairs =
  if forallb is_number (map snd pairs)
  then ok (map (fun p => f (fst p) * number_of (snd p)) pairs)
  else raise TypeError.
Proof.
  induction pairs as [|[b br] pairs IH]; simpl; [reflexivity|].
  destruct br; simpl; try reflexivity.
  rewrite IH. destruct (forallb is_number (map snd pairs)); reflexivity.
Qed.

Lemma rings_of_used_values (self : EllipticalBody.t) (l : list pyval) :
  map snd (combine (rings_of self l) l) = removelast l.
Proof.
  rewrite map_snd_combine_long, rings_of_length, removelast_firstn_len.
  f_equal. lia.
Qed.

Section WhenDefined.

Import Binary.

Variable area : Polygon -> R.

Lemma mag_of_profile (body : EllipticalBody.t) (l : list pyval) :
  EllipticalBody.brightness body = VList l ->
  mag_of area body =
  if forallb is_number (removelast l)
  then ok (py_sum (map (fun p => area (geometry (fst p)) * number_of (snd p))
                     (combine (rings_of body l) l)))
  else raise TypeError.
Proof.
  intros H. unfold mag_of, brtns_of.
  rewrite (bodies_profile body l H), H. simpl.
  rewrite (mapM_py_mul (fun b => area (geometry b))), rings_of_used_values.
  destruct (forallb is_number (removelast l)); reflexivity.
Qed.

Lemma mag_of_cases (body : EllipticalBody.t) :
  match mag_error (EllipticalBody.brightness body) with
  | Some e => mag_of area body = raise e
  | None => exists mag, mag_of area body = ok mag
  end.
Proof.
  destruct (EllipticalBody.brightness body) as [v|?| |l|?] eqn:Hv; simpl;
    try (unfold mag_of, EllipticalBody.bodies; rewrite Hv; reflexivity).
  - rewrite (mag_of_scalar area body v Hv). eexists. reflexivity.
  - rewrite (mag_of_profile body l Hv).
    destruct (forallb is_number (removelast l)); [eexists|]; reflexivity.
Qed.

Lemma res_cases_iff {A} (c : res A) (o : option exn) :
  match o with
  | Some e => c = raise e
  | None => exists v, c = ok v
  end ->
  forall e, c = raise e <-> o = Some e.
Proof.
  intros H e. destruct o as [e'|].
  - rewrite H. split; intros E; injection E as ->; reflexivity.
  - destruct H as [v ->]. split; discriminate.
Qed.

(** X5. [get_mag_A] and [get_mag_B] raise [ValueError] when the brightness
    of the body is neither a number nor a list, [TypeError] when it is a
    list with a value that is not a number among those before the last, and
    nothing otherwise: the last value of a profile is never looked at. *)
Theorem X5_mag_exceptions (s : Binary.t) (e : exn) :
  (get_mag_A area s = raise e
   <-> mag_error (EllipticalBody.brightness (bodyA s)) = Some e)
  /\ (get_mag_B area s = raise e
      <-> mag_error (EllipticalBody.brightness (bodyB s)) = Some e).
Proof.
  split; apply res_cases_iff, mag_of_cases.
Qed.

Lemma silhouette_cases (s : Binary.t) :
  mag_error (EllipticalBody.brightness (bodyB s)) = None ->
  if no_region (EllipticalBody.brightness (bodyB s))
  then silhouette s = raise IndexError
  else exists sil, silhouette s = ok sil.
Proof.
  intros Hm. unfold silhouette.
  destruct (EllipticalBody.brightness (bodyB s)) as [v|?| |l|?] eqn:Hv;
    try discriminate; simpl.
  - rewrite (bodies_scalar _ v Hv). eexists. reflexivity.
  - rewrite (bodies_profile _ l Hv). simpl.
    destruct (List.length l <=? 1)%nat eqn:Hn.
    + apply Nat.leb_le in Hn.
      assert (E : List.length (rings_of (bodyB s) l) = 0%nat)
        by (rewrite rings_of_length; lia).
      apply length_zero_iff_nil in E. rewrite E. reflexivity.
    + apply Nat.leb_gt in Hn.
      assert (E : List.length (rings_of (bodyB s) l) <> 0%nat)
        by (rewrite rings_of_length; lia).
      destruct (rings_of (bodyB s) l) as [|r rs] using rev_ind;
        [contradiction|].
      exists r. apply py_last_app.
Qed.

Lemma get_total_mag_cases (s : Binary.t) :
  match total_error (EllipticalBody.brightness (bodyA s))
          (EllipticalBody.brightness (bodyB s)) with
  | Some e => get_total_mag area s = raise e
  | None => exists mag, get_total_mag area s = ok mag
  end.
Proof.
  unfold total_error, get_total_mag, get_mag_B.
  pose proof (mag_of_cases (bodyB s)) as HB.
  destruct (mag_error (EllipticalBody.brightness (bodyB s))) as [e|] eqn:HmB.
  - rewrite HB. reflexivity.
  - destruct HB as [b_mag ->]. simpl.
    pose proof (silhouette_cases s HmB) as Hsil.
    unfold brtns_of.
    destruct (EllipticalBody.brightness (bodyA s)) as [v|?| |l|?] eqn:Hv;
      try (unfold EllipticalBody.bodies; rewrite Hv; reflexivity).
    + rewrite (bodies_scalar _ v Hv). simpl.
      destruct (no_region (EllipticalBody.brightness (bodyB s))).
      * rewrite Hsil. reflexivity.
      * destruct Hsil as [sil ->]. simpl. eexists. reflexivity.
    + rewrite (bodies_profile _ l Hv). simpl.
      destruct (List.length l <=? 1)%nat eqn:Hn.
      * apply Nat.leb_le in Hn.
        assert (E : List.length (rings_of (bodyA s) l) = 0%nat)
          by (rewrite rings_of_length; lia).
        apply length_zero_iff_nil in E. rewrite E. simpl.
        eexists. reflexivity.
      * apply Nat.leb_gt in Hn.
        destruct (no_region (EllipticalBody.brightness (bodyB s))).
        -- assert (E : List.length (combine (rings_of (bodyA s) l) l) <> 0%nat)
             by (rewrite length_combine, rings_of_length; lia).
           destruct (combine (rings_of (bodyA s) l) l) as [|[b br] pairs];
             [contradiction|].
           simpl. rewrite Hsil. reflexivity.
        -- destruct Hsil as [sil Hsil].
           rewrite (mapM_ext _
                      (fun '(b, br) =>
                         py_mul (area (Difference (geometry b) (geometry sil))) br))
             by (intros [b br]; rewrite Hsil; reflexivity).
           rewrite (mapM_py_mul
                      (fun b => area (Difference (geometry b) (geometry sil)))),
             rings_of_used_values.
           destruct (forallb is_number (removelast l));
             [eexists|]; reflexivity.
Qed.

(** X6. The exception of [get_total_mag] is decided by the brightness of
    the two bodies alone, whatever their positions, orientations and
    semi-axes: what [get_mag_B] raises comes first; then [ValueError] for a
    first body whose brightness is neither a number nor a list; then
    [IndexError] when the first body has a region and the second, with a
    profile of fewer than two values, has none; then [TypeError] for a value
    that is not a number among those the first body uses. *)
Theorem X6_total_mag_exceptions (s : Binary.t) (e : exn) :
  get_total_mag area s = raise e
  <-> total_error (EllipticalBody.brightness (bodyA s))
        (EllipticalBody.brightness (bodyB s)) = Some e.
Proof.
  apply res_cases_iff, get_total_mag_cases.
Qed.

End WhenDefined.

(** ** The value of the flux of one body *)

Lemma py_sum_scaled {A} (f : A -> R) (k : R) (l : list A) :
  py_sum (map (fun v => f v * k) l) = py_sum (map f l) * k.
Proof.
  induction l as [|v l IH]; simpl.
  - unfold py_sum. simpl. lra.
  - rewrite !py_sum_cons, IH. lra.
Qed.

Lemma map_combine_constant {A} (f : A -> R) (k : R) (rs : list A)
    (l : list pyval) :
  Forall (fun v => v = VNum k) l ->
  (List.length rs <= List.length l)%nat ->
  map (fun p => f (fst p) * number_of (snd p)) (combine rs l)
  = map (fun r => f r * k) rs.
Proof.
  intros Hl. revert rs. induction Hl as [|v l Hv Hl IH]; intros [|r rs] Hlen;
    simpl in *; try reflexivity; try lia.
  subst v. simpl. f_equal. apply IH. lia.
Qed.

Lemma In_removelast {A} (v : A) (l : list A) :
  In v (removelast l) -> In v l.
Proof.
  induction l as [|w l IH]; simpl; [tauto|].
  destruct l as [|w' l]; [simpl; tauto|].
  intros [H|H]; [left; exact H | right; apply IH; exact H].
Qed.

(** X7. With exact areas, the flux of a body of uniform brightness [k] and
    semi-axes [a, b >= 0] is [PI * a * b * k], wherever the body is and
    however it is turned. *)
Theorem X7_uniform_flux (body : EllipticalBody.t) (k : R) :
  EllipticalBody.brightness body = VNum k ->
  0 <= EllipticalBody.a body -> 0 <= EllipticalBody.b body ->
  Binary.mag_of nested_area body
  = ok (PI * EllipticalBody.a body * EllipticalBody.b body * k).
Proof.
  intros H Ha Hb. rewrite (mag_of_scalar nested_area body k H).
  unfold ok. f_equal. simpl.
  rewrite Rabs_pos_eq by (apply Rmult_le_pos; assumption). ring.
Qed.

Lemma X7_uniform_flux_witness :
  EllipticalBody.brightness tno = VNum (1 / 10)
  /\ 0 <= EllipticalBody.a tno /\ 0 <= EllipticalBody.b tno
  /\ Binary.mag_of nested_area tno = ok (PI * 5 * 5 * (1 / 10)).
Proof.
  split; [reflexivity|]. split; [simpl; lra|]. split; [simpl; lra|].
  apply (X7_uniform_flux tno (1 / 10)); [reflexivity | simpl; lra | simpl; lra].
Defined.

(** X8. With exact areas, a profile of [n >= 2] values that are all the
    number [k] gives the flux of the body of uniform brightness [k]:
    [PI * a * b * k]. *)
Theorem X8_constant_profile_flux (body : EllipticalBody.t) (l : list pyval)
    (k : R) :
  EllipticalBody.brightness body = VList l ->
  (2 <= List.length l)%nat ->
  Forall (fun v => v = VNum k) l ->
  0 <= EllipticalBody.a body -> 0 <= EllipticalBody.b body ->
  Binary.mag_of nested_area body
  = ok (PI * EllipticalBody.a body * EllipticalBody.b body * k).
Proof.
  intros H Hn Hl Ha Hb. rewrite (mag_of_profile nested_area body l H).
  assert (Hnum : forallb is_number (removelast l) = true).
  { apply forallb_forall. intros v Hv.
    assert (Hin : In v l) by (apply In_removelast; exact Hv).
    rewrite Forall_forall in Hl. rewrite (Hl v Hin). reflexivity. }
  rewrite Hnum. unfold ok. f_equal.
  rewrite (map_combine_constant (fun r => nested_area (geometry r)) k)
    by (try exact Hl; rewrite rings_of_length; lia).
  rewrite py_sum_scaled, ring_areas_sum by assumption. reflexivity.
Qed.

Lemma X8_constant_profile_flux_witness :
  EllipticalBody.brightness shaded
  = VList [VNum (1 / 10); VNum (1 / 10); VNum (1 / 10)]
  /\ (2 <= List.length [VNum (1 / 10); VNum (1 / 10); VNum (1 / 10)])%nat
  /\ Forall (fun v => v = VNum (1 / 10))
       [VNum (1 / 10); VNum (1 / 10); VNum (1 / 10)]
  /\ 0 <= EllipticalBody.a shaded /\ 0 <= EllipticalBody.b shaded
  /\ Binary.mag_of nested_area shaded = ok (PI * 4 * 4 * (1 / 10)).
Proof.
  split; [reflexivity|]. split; [simpl; lia|].
  split; [repeat constructor|].
  split; [simpl; lra|]. split; [simpl; lra|].
  apply (X8_constant_profile_flux shaded
           [VNum (1 / 10); VNum (1 / 10); VNum (1 / 10)] (1 / 10));
    [reflexivity | simpl; lia | repeat constructor | simpl; lra | simpl; lra].
Defined.

(** ** The total flux against the fluxes of the bodies *)

Lemma py_sum_le {A} (f g : A -> R) (l : list A) :
  (forall v, In v l -> f v <= g v) ->
  py_sum (map f l) <= py_sum (map g l).
Proof.
  induction l as [|v l IH]; intros H; simpl.
  - unfold py_sum. simpl. lra.
  - rewrite !py_sum_cons.
    pose proof (H v (or_introl eq_refl)).
    assert (py_sum (map f l) <= py_sum (map g l))
      by (apply IH; intros w Hw; apply H; right; exact Hw).
    lra.
Qed.

Lemma py_sum_zero {A} (f : A -> R) (l : list A) :
  (forall v, In v l -> f v = 0) -> py_sum (map f l) = 0.
Proof.
  induction l as [|v l IH]; intros H; simpl.
  - reflexivity.
  - rewrite py_sum_cons, (H v (or_introl eq_refl)), IH; [lra|].
    intros w Hw. apply H. right. exact Hw.
Qed.

Lemma shape_area_nonneg (s : Shape) : 0 <= shape_area s.
Proof.
  induction s as [c r|g IH xf yf|g IH angle]; simpl.
  - pose proof PI_RGT_0. nra.
  - apply Rmult_le_pos; [apply Rabs_pos | exact IH].
  - exact IH.
Qed.

Lemma minuend_area_nonneg (g : Polygon) : 0 <= minuend_area g.
Proof.
  induction g as [s|g IH h _]; simpl; [apply shape_area_nonneg | exact IH].
Qed.

Section Totals.

Import Binary.

Variable area : Polygon -> R.

Lemma py_zip_flux_pairs (body : EllipticalBody.t) (rs : list Region) :
  EllipticalBody.bodies body = ok rs ->
  py_zip rs (brtns_of body) = ok (flux_pairs body).
Proof.
  intros H. unfold flux_pairs. rewrite H. unfold brtns_of.
  unfold EllipticalBody.bodies in H.
  destruct (EllipticalBody.brightness body); simpl in *;
    try discriminate; reflexivity.
Qed.

Lemma flux_pairs_regions (body : EllipticalBody.t) (rs : list Region)
    (p : Region * pyval) :
  EllipticalBody.bodies body = ok rs -> In p (flux_pairs body) -> In (fst p) rs.
Proof.
  intros H Hp. unfold flux_pairs in Hp. rewrite H in Hp.
  destruct (brtns_of body); try contradiction.
  destruct p as [r v]. apply in_combine_l in Hp. exact Hp.
Qed.

Lemma flux_pairs_nonneg (body : EllipticalBody.t) (p : Region * pyval) :
  nonneg_brightness (EllipticalBody.brightness body) ->
  In p (flux_pairs body) -> 0 <= number_of (snd p).
Proof.
  intros Hb Hp. unfold flux_pairs, brtns_of in Hp.
  destruct (EllipticalBody.bodies body) as [e|rs]; [contradiction|].
  destruct p as [r v]. simpl.
  destruct (EllipticalBody.brightness body) as [k|?| |l|?]; simpl in *;
    try contradiction.
  - apply in_combine_r in Hp. destruct Hp as [<-|[]]. exact Hb.
  - apply in_combine_r in Hp. rewrite Forall_forall in Hb.
    specialize (Hb v Hp). destruct v; simpl in *; try contradiction.
    exact Hb.
Qed.

(** The flux of a body, when it is defined. *)
Lemma mag_of_value (body : EllipticalBody.t) :
  forallb is_number (map snd (flux_pairs body)) = true ->
  forall rs, EllipticalBody.bodies body = ok rs ->
  mag_of area body =
  ok (py_sum (map (fun p => area (geometry (fst p)) * number_of (snd p))
                (flux_pairs body))).
Proof.
  intros Hnum rs Hrs. unfold mag_of.
  rewrite Hrs. simpl. rewrite (py_zip_flux_pairs body rs Hrs). simpl.
  rewrite (mapM_py_mul (fun b => area (geometry b))), Hnum. reflexivity.
Qed.

(** The total flux, when it is defined. *)
Lemma get_total_mag_value (s : Binary.t) (t : R) :
  get_total_mag area s = ok t ->
  exists mB,
    get_mag_B area s = ok mB
    /\ get_mag_A area s =
       ok (py_sum (map (fun p => area (geometry (fst p)) * number_of (snd p))
                     (flux_pairs (bodyA s))))
    /\ ((flux_pairs (bodyA s) = [] /\ t = mB + 0)
        \/ exists sil,
             silhouette s = ok sil
             /\ t = mB + py_sum
                          (map (fun p =>
                                  area (Difference (geometry (fst p))
                                          (geometry sil))
                                  * number_of (snd p))
                             (flux_pairs (bodyA s)))).
Proof.
  unfold get_total_mag. intros H.
  destruct (get_mag_B area s) as [e|mB]; [discriminate|].
  exists mB. split; [reflexivity|]. simpl in H.
  destruct (EllipticalBody.bodies (bodyA s)) as [e|rs] eqn:Hrs;
    [discriminate|].
  simpl in H. rewrite (py_zip_flux_pairs _ rs Hrs) in H. simpl in H.
  unfold get_mag_A.
  destruct (silhouette s) as [e|sil] eqn:Hsil.
  - destruct (flux_pairs (bodyA s)) as [|[b br] pairs] eqn:Hp;
      [|simpl in H; discriminate].
    split.
    + pose proof (mag_of_value (bodyA s)) as HA. rewrite Hp in HA.
      apply (HA eq_refl rs Hrs).
    + left. simpl in H. injection H as <-. unfold py_sum. simpl.
      split; reflexivity.
  - rewrite (mapM_ext _
               (fun '(b, br) =>
                  py_mul (area (Difference (geometry b) (geometry sil))) br))
      in H by (intros [b br]; reflexivity).
    rewrite (mapM_py_mul
               (fun b => area (Difference (geometry b) (geometry sil)))) in H.
    destruct (forallb is_number (map snd (flux_pairs (bodyA s)))) eqn:Hnum;
      [|discriminate].
    split.
    + apply (mag_of_value _ Hnum rs Hrs).
    + right. exists sil. split; [reflexivity|].
      simpl in H. injection H as <-. reflexivity.
Qed.

End Totals.

(** X9. When the total flux is defined, the brightness of the first body is
    made of numbers that are not negative, and the area of a difference lies
    between 0 and the area of the polygon subtracted from, the total flux
    lies between the flux of the second body and the sum of the two fluxes:
    an eclipse adds no light. *)
Theorem X9_total_flux_bounds (area : Polygon -> R) (s : Binary.t) (t : R) :
  Binary.get_total_mag area s = ok t ->
  nonneg_brightness (EllipticalBody.brightness (Binary.bodyA s)) ->
  (forall g h, 0 <= area (Difference g h) <= area g) ->
  exists mA mB,
    Binary.get_mag_A area s = ok mA
    /\ Binary.get_mag_B area s = ok mB
    /\ mB <= t <= mA + mB.
Proof.
  intros Ht Hb Harea.
  destruct (get_total_mag_value area s t Ht) as (mB & HmB & HmA & Hcases).
  eexists. exists mB. split; [exact HmA|]. split; [exact HmB|].
  destruct Hcases as [[Hnil ->]|(sil & _ & ->)].
  - rewrite Hnil. unfold py_sum. simpl. lra.
  - assert (Hlo : 0 <= py_sum
                         (map (fun p =>
                                 area (Difference (geometry (fst p))
                                         (geometry sil))
                                 * number_of (snd p))
                            (flux_pairs (Binary.bodyA s)))).
    { rewrite <- (py_sum_zero (fun _ : Region * pyval => 0)
                    (flux_pairs (Binary.bodyA s))) at 1
        by reflexivity.
      apply py_sum_le. intros p Hp.
      apply Rmult_le_pos; [apply Harea | eapply flux_pairs_nonneg; eassumption]. }
    assert (Hhi : py_sum
                    (map (fun p =>
                            area (Difference (geometry (fst p)) (geometry sil))
                            * number_of (snd p))
                       (flux_pairs (Binary.bodyA s)))
                  <= py_sum
                       (map (fun p => area (geometry (fst p))
                                      * number_of (snd p))
                          (flux_pairs (Binary.bodyA s)))).
    { apply py_sum_le. intros p Hp.
      apply Rmult_le_compat_r;
        [eapply flux_pairs_nonneg; eassumption | apply Harea]. }
    lra.
Qed.

Lemma X9_total_flux_bounds_witness :
  exists t,
    Binary.get_total_mag minuend_area (Binary.Two disc tno) = ok t
    /\ nonneg_brightness
         (EllipticalBody.brightness (Binary.bodyA (Binary.Two disc tno)))
    /\ (forall g h,
          0 <= minuend_area (Difference g h) <= minuend_area g)
    /\ exists mA mB,
         Binary.get_mag_A minuend_area (Binary.Two disc tno) = ok mA
         /\ Binary.get_mag_B minuend_area (Binary.Two disc tno) = ok mB
         /\ mB <= t <= mA + mB.
Proof.
  destruct (get_total_mag_scalar minuend_area (Binary.Two disc tno) 1 (1 / 10))
    as [t Ht]; [reflexivity | reflexivity |].
  assert (Hb : nonneg_brightness
                 (EllipticalBody.brightness
                    (Binary.bodyA (Binary.Two disc tno)))) by (simpl; lra).
  assert (Harea : forall g h,
             0 <= minuend_area (Difference g h) <= minuend_area g).
  { intros g h. simpl. split; [apply minuend_area_nonneg | lra]. }
  exists t. split; [exact Ht|]. split; [exact Hb|]. split; [exact Harea|].
  apply (X9_total_flux_bounds minuend_area (Binary.Two disc tno) t Ht Hb Harea).
Defined.

(** X10. When the total flux is defined and the silhouette takes no area
    from any region of the first body, the total flux is the sum of the
    fluxes of the two bodies. *)
Theorem X10_no_loss_is_sum (area : Polygon -> R) (s : Binary.t) (t : R) :
  Binary.get_total_mag area s = ok t ->
  (forall rs r sil,
     EllipticalBody.bodies (Binary.bodyA s) = ok rs -> In r rs ->
     Binary.silhouette s = ok sil ->
     area (Difference (geometry r) (geometry sil)) = area (geometry r)) ->
  exists mA mB,
    Binary.get_mag_A area s = ok mA
    /\ Binary.get_mag_B area s = ok mB
    /\ t = mB + mA.
Proof.
  intros Ht Hsame.
  destruct (get_total_mag_value area s t Ht) as (mB & HmB & HmA & Hcases).
  eexists. exists mB. split; [exact HmA|]. split; [exact HmB|].
  destruct Hcases as [[Hnil ->]|(sil & Hsil & ->)].
  - rewrite Hnil. reflexivity.
  - f_equal. f_equal. apply map_ext_in. intros p Hp.
    destruct (EllipticalBody.bodies (Binary.bodyA s)) as [e|rs] eqn:Hrs.
    + unfold flux_pairs in Hp. rewrite Hrs in Hp. contradiction.
    + rewrite (Hsame rs (fst p) sil eq_refl
                 (flux_pairs_regions _ rs p Hrs Hp) Hsil).
      reflexivity.
Qed.

Lemma X10_no_loss_is_sum_witness :
  exists t,
    Binary.get_total_mag minuend_area (Binary.Two disc tno) = ok t
    /\ (forall rs r sil,
          EllipticalBody.bodies (Binary.bodyA (Binary.Two disc tno)) = ok rs ->
          In r rs ->
          Binary.silhouette (Binary.Two disc tno) = ok sil ->
          minuend_area (Difference (geometry r) (geometry sil))
          = minuend_area (geometry r))
    /\ exists mA mB,
         Binary.get_mag_A minuend_area (Binary.Two disc tno) = ok mA
         /\ Binary.get_mag_B minuend_area (Binary.Two disc tno) = ok mB
         /\ t = mB + mA.
Proof.
  destruct (get_total_mag_scalar minuend_area (Binary.Two disc tno) 1 (1 / 10))
    as [t Ht]; [reflexivity | reflexivity |].
  assert (Hsame : forall rs r sil,
             EllipticalBody.bodies (Binary.bodyA (Binary.Two disc tno)) = ok rs ->
             In r rs ->
             Binary.silhouette (Binary.Two disc tno) = ok sil ->
             minuend_area (Difference (geometry r) (geometry sil))
             = minuend_area (geometry r)) by reflexivity.
  exists t. split; [exact Ht|]. split; [exact Hsame|].
  apply (X10_no_loss_is_sum minuend_area (Binary.Two disc tno) t Ht Hsame).
Defined.

(** X11. When the total flux is defined and the silhouette leaves no area
    of any region of the first body, the total flux is the flux of the
    second body. *)
Theorem X11_full_occultation (area : Polygon -> R) (s : Binary.t) (t : R) :
  Binary.get_total_mag area s = ok t ->
  (forall rs r sil,
     EllipticalBody.bodies (Binary.bodyA s) = ok rs -> In r rs ->
     Binary.silhouette s = ok sil ->
     area (Difference (geometry r) (geometry sil)) = 0) ->
  Binary.get_mag_B area s = ok t.
Proof.
  intros Ht Hnone.
  destruct (get_total_mag_value area s t Ht) as (mB & HmB & _ & Hcases).
  rewrite HmB. unfold ok. f_equal.
  destruct Hcases as [[_ ->]|(sil & Hsil & ->)]; [lra|].
  rewrite py_sum_zero; [lra|]. intros p Hp.
  destruct (EllipticalBody.bodies (Binary.bodyA s)) as [e|rs] eqn:Hrs.
  - unfold flux_pairs in Hp. rewrite Hrs in Hp. contradiction.
  - rewrite (Hnone rs (fst p) sil eq_refl
               (flux_pairs_regions _ rs p Hrs Hp) Hsil).
    lra.
Qed.

Lemma X11_full_occultation_witness :
  exists t,
    Binary.get_total_mag
      (fun g => match g with Solid sh => shape_area sh | Difference _ _ => 0 end)
      (Binary.Same disc) = ok t
    /\ Binary.get_mag_B
         (fun g => match g with Solid sh => shape_area sh | Difference _ _ => 0 end)
         (Binary.Same disc) = ok t.
Proof.
  destruct (get_total_mag_scalar
              (fun g => match g with Solid sh => shape_area sh
                                | Difference _ _ => 0 end)
              (Binary.Same disc) 1 1)
    as [t Ht]; [reflexivity | reflexivity |].
  exists t. split; [exact Ht|].
  apply (X11_full_occultation _ (Binary.Same disc) t Ht). reflexivity.
Defined.

(** ** The samples and the entries of a run *)

Lemma linspace_samples_nth_any (start stop : R) (n i : nat) :
  (i < n)%nat ->
  nth_error (linspace_samples start stop n) i = Some (interpolate start stop n i).
Proof.
  intros Hi. destruct (Nat.le_gt_cases 2 n) as [Hn|Hn].
  - apply linspace_samples_nth; assumption.
  - assert (n = 1%nat) by lia. subst n. assert (i = 0%nat) by lia. subst i.
    rewrite linspace_samples_one, interpolate_first. reflexivity.
Qed.

Lemma interpolate_stop (start stop : R) (n : nat) :
  (2 <= n)%nat -> interpolate start stop n (n - 1) = stop.
Proof.
  intros Hn. unfold interpolate.
  assert (0 < INR (n - 1)) by (apply lt_0_INR; lia).
  field. lra.
Qed.

Lemma py_max_nonempty (l : list R) :
  l <> [] -> exists m, py_max l = ok m.
Proof.
  destruct l as [|v l]; [congruence|]. intros _. eexists. reflexivity.
Qed.

Lemma place_place (x x' : R * R * R) (s : Binary.t) :
  place x (place x' s) = place x s.
Proof.
  destruct x as [[? ?] ?], x' as [[? ?] ?], s; reflexivity.
Qed.

Section Runs.

Import Binary.

Variable area : Polygon -> R.

(** The samples of a run of at least one step. *)
Lemma samples_of_run (s : Binary.t) (to : Point.t) (angle : R) (step : Z) :
  (1 <= step)%Z ->
  exists samples lims,
    samples_of s to angle step = ok (samples, lims)
    /\ List.length samples = Z.to_nat step
    /\ forall i, (i < Z.to_nat step)%nat ->
         nth_error samples i = Some (sample_at s to angle (Z.to_nat step) i).
Proof.
  intros Hstep. unfold samples_of.
  rewrite !linspace_nonneg by lia. simpl.
  set (n := Z.to_nat step).
  assert (Hn : (1 <= n)%nat) by (unfold n; lia).
  set (xs := linspace_samples _ (Point.x to) n).
  set (ys := linspace_samples _ (Point.y to) n).
  set (angs := linspace_samples _ angle n).
  assert (Hxs : xs <> []).
  { intros E. apply (f_equal (@List.length _)) in E.
    unfold xs in E. rewrite linspace_samples_length in E. simpl in E. lia. }
  destruct (py_max_nonempty (map Rabs xs)) as [lo ->];
    [destruct xs; [congruence | discriminate]|].
  destruct (py_max_nonempty (map (fun v => Rabs v + 10) xs)) as [hi ->];
    [destruct xs; [congruence | discriminate]|].
  simpl. eexists. eexists. split; [reflexivity|]. split.
  - unfold EllipticalBody.zip3, xs, ys, angs.
    rewrite !length_combine, !linspace_samples_length. lia.
  - intros i Hi. unfold EllipticalBody.zip3, xs, ys, angs, sample_at.
    rewrite !nth_error_combine, !linspace_samples_nth_any by exact Hi.
    reflexivity.
Qed.

(** The loop, started in a state [s] that any sample places as it places
    [base]. *)
Lemma frames_ok (samples : list (R * R * R)) :
  forall (it : nat) (ret : list (nat * R)) (s base : Binary.t)
         (r : list (nat * R)),
    (forall x, place x s = place x base) ->
    fst (frames area it samples ret s) = ok r ->
    exists r',
      r = ret ++ r'
      /\ List.length r' = List.length samples
      /\ (forall j sample,
            nth_error samples j = Some sample ->
            exists mag,
              nth_error r' j = Some ((it + j)%nat, mag)
              /\ get_total_mag area (place sample base) = ok mag)
      /\ (forall sample,
            py_last samples = ok sample ->
            snd (frames area it samples ret s) = place sample base).
Proof.
  induction samples as [|sample rest IH]; intros it ret s base r Hs Hr.
  - simpl in Hr. injection Hr as <-. exists []. rewrite app_nil_r.
    split; [reflexivity|]. split; [reflexivity|]. split.
    + intros [|j] sample H; discriminate.
    + intros sample H. discriminate.
  - rewrite frames_cons in Hr |- *. rewrite (Hs sample) in Hr |- *.
    destruct (get_total_mag area (place sample base)) as [e|mag] eqn:Hmag;
      [discriminate|].
    destruct (IH (S it) (ret ++ [(it, mag)]) (place sample base) base r)
      as (r' & -> & Hlen & Hnth & Hlast);
      [intros x; apply place_place | exact Hr |].
    exists ((it, mag) :: r'). rewrite <- app_assoc. simpl.
    split; [reflexivity|]. split; [lia|]. split.
    + intros [|j] sample' H; simpl in H.
      * injection H as <-. exists mag. rewrite Nat.add_0_r.
        split; [reflexivity | exact Hmag].
      * destruct (Hnth j sample' H) as (mag' & Hj & Hmag').
        exists mag'. split; [|exact Hmag'].
        simpl. rewrite Hj. f_equal. f_equal. lia.
    + intros sample' H.
      destruct rest as [|sample'' rest'] using rev_ind.
      * unfold py_last in H. simpl in H. injection H as <-. reflexivity.
      * clear IHrest'. apply Hlast.
        change (sample :: rest' ++ [sample''])
          with ((sample :: rest') ++ [sample'']) in H.
        rewrite py_last_app in H |- *. exact H.
Qed.

(** A system whose total flux is defined: the loop raises nothing. *)
Lemma frames_defined (samples : list (R * R * R)) :
  forall (it : nat) (ret : list (nat * R)) (s : Binary.t),
    total_error (EllipticalBody.brightness (bodyA s))
      (EllipticalBody.brightness (bodyB s)) = None ->
    exists r, fst (frames area it samples ret s) = ok r.
Proof.
  induction samples as [|sample rest IH]; intros it ret s Hs.
  - exists ret. reflexivity.
  - rewrite frames_cons.
    destruct (place_brightness sample s) as [EA EB].
    pose proof (get_total_mag_cases area (place sample s)) as H.
    rewrite EA, EB, Hs in H. destruct H as [mag ->].
    apply IH. rewrite EA, EB. exact Hs.
Qed.

End Runs.

(** X12. A run that returns has made at least one step and returns one
    entry for each step, in order: entry [i] is the index [i] with the
    total flux of the system in which the second body is at sample [i] of
    the linear interpolation between its pose before the run and the
    target. *)
Theorem X12_run_entries (area : Polygon -> R) (s : Binary.t) (to : Point.t)
    (angle : R) (step : Z) (r : list (nat * R)) :
  fst (Binary.simulate area to angle step s) = ok r ->
  (1 <= step)%Z
  /\ List.length r = Z.to_nat step
  /\ forall i, (i < Z.to_nat step)%nat ->
       exists mag,
         nth_error r i = Some (i, mag)
         /\ Binary.get_total_mag area
              (place (sample_at s to angle (Z.to_nat step) i) s) = ok mag.
Proof.
  intros Hr. rewrite simulate_unfold in Hr.
  destruct (Z.lt_ge_cases step 1) as [Hlt|Hge].
  { rewrite samples_of_rejects in Hr by exact Hlt. discriminate. }
  split; [exact Hge|].
  destruct (samples_of_run s to angle step Hge)
    as (samples & lims & Hs & Hlen & Hnth).
  rewrite Hs in Hr. unfold ok in Hr.
  destruct (frames_ok area samples 0 [] s s r (fun x => eq_refl) Hr)
    as (r' & -> & Hlen' & Hentries & _).
  simpl. split; [lia|].
  intros i Hi. destruct (Hentries i _ (Hnth i Hi)) as (mag & Hi' & Hmag).
  exists mag. split; assumption.
Qed.

Lemma X12_run_entries_witness :
  exists r,
    fst (Binary.simulate nested_area (Point.mk (- 15) 0) 0 3
           (Binary.Two disc tno)) = ok r
    /\ List.length r = 3%nat.
Proof.
  destruct (samples_of_run (Binary.Two disc tno) (Point.mk (- 15) 0) 0 3
              ltac:(lia)) as (samples & lims & Hs & _ & _).
  destruct (frames_defined nested_area samples 0 [] (Binary.Two disc tno)
              eq_refl) as [r Hr].
  assert (H : fst (Binary.simulate nested_area (Point.mk (- 15) 0) 0 3
                     (Binary.Two disc tno)) = ok r).
  { rewrite simulate_unfold, Hs. exact Hr. }
  exists r. split; [exact H|].
  apply (X12_run_entries nested_area _ _ _ _ r H).
Defined.

(** X13. A run of two steps or more that returns leaves the second body at
    the target position and at the target orientation. *)
Theorem X13_run_reaches_target (area : Polygon -> R) (s : Binary.t)
    (to : Point.t) (angle : R) (step : Z) (r : list (nat * R)) :
  fst (Binary.simulate area to angle step s) = ok r ->
  (2 <= step)%Z ->
  EllipticalBody.pos (Binary.bodyB (snd (Binary.simulate area to angle step s)))
  = to
  /\ EllipticalBody.theta
       (Binary.bodyB (snd (Binary.simulate area to angle step s)))
     = angle.
Proof.
  intros Hr Hstep. rewrite simulate_unfold in Hr |- *.
  destruct (samples_of_run s to angle step ltac:(lia))
    as (samples & lims & Hs & Hlen & Hnth).
  rewrite Hs in Hr |- *. unfold ok in Hr |- *.
  destruct (frames_ok area samples 0 [] s s r (fun x => eq_refl) Hr)
    as (r' & _ & _ & _ & Hlast).
  assert (Hl : py_last samples
               = ok (Point.x to, Point.y to, angle)).
  { apply py_last_of_nth_error.
    - intros E. rewrite E in Hlen. simpl in Hlen. lia.
    - rewrite Hlen, Hnth by lia. unfold sample_at.
      rewrite !interpolate_stop by lia. reflexivity. }
  rewrite (Hlast _ Hl).
  destruct to as [tx ty], s; split; reflexivity.
Qed.

Lemma X13_run_reaches_target_witness :
  (2 <= 3)%Z
  /\ EllipticalBody.pos
       (Binary.bodyB
          (snd (Binary.simulate nested_area (Point.mk (- 15) 0) 0 3
                  (Binary.Two disc tno))))
     = Point.mk (- 15) 0.
Proof.
  split; [lia|].
  destruct (samples_of_run (Binary.Two disc tno) (Point.mk (- 15) 0) 0 3
              ltac:(lia)) as (samples & lims & Hs & _ & _).
  destruct (frames_defined nested_area samples 0 [] (Binary.Two disc tno)
              eq_refl) as [r Hr].
  assert (H : fst (Binary.simulate nested_area (Point.mk (- 15) 0) 0 3
                     (Binary.Two disc tno)) = ok r).
  { rewrite simulate_unfold, Hs. exact Hr. }
  apply (X13_run_reaches_target nested_area _ _ _ _ r H). lia.
Defined.

(** X14. A run raises exactly when it has fewer than one step (a
    [ValueError]) or the total flux of the system before the run raises
    (the same exception); a run that raises leaves the system as it was. *)
Theorem X14_run_raises (area : Polygon -> R) (s : Binary.t) (to : Point.t)
    (angle : R) (step : Z) (e : exn) :
  (fst (Binary.simulate area to angle step s) = raise e
   <-> ((step < 1)%Z /\ e = ValueError)
       \/ ((1 <= step)%Z /\ Binary.get_total_mag area s = raise e))
  /\ (fst (Binary.simulate area to angle step s) = raise e ->
      snd (Binary.simulate area to angle step s) = s).
Proof.
  rewrite simulate_unfold.
  destruct (Z.lt_ge_cases step 1) as [Hlt|Hge].
  { rewrite samples_of_rejects by exact Hlt. simpl. split; [|reflexivity].
    split.
    - intros H. injection H as <-. left. split; [exact Hlt | reflexivity].
    - intros [[_ ->]|[Hge _]]; [reflexivity | lia]. }
  destruct (samples_of_run s to angle step Hge)
    as (samples & lims & -> & Hlen & Hnth). unfold ok.
  destruct samples as [|sample rest]; [simpl in Hlen; lia|].
  assert (Hfirst : sample
                   = (Point.x (EllipticalBody.pos (Binary.bodyB s)),
                      Point.y (EllipticalBody.pos (Binary.bodyB s)),
                      EllipticalBody.theta (Binary.bodyB s))).
  { pose proof (Hnth 0%nat ltac:(lia)) as H0. simpl in H0.
    injection H0 as ->. unfold sample_at.
    rewrite !interpolate_first. reflexivity. }
  rewrite frames_cons, Hfirst, place_present.
  pose proof (get_total_mag_cases area s) as Hcases.
  destruct (Binary.get_total_mag area s) as [e'|mag] eqn:Hmag.
  - simpl. split; [|reflexivity]. split.
    + intros H. injection H as ->. right. split; [exact Hge | reflexivity].
    + intros [[Hlt _]|[_ H]]; [lia | injection H as ->; reflexivity].
  - destruct (total_error _ _) eqn:Herr; [discriminate|].
    destruct (frames_defined area rest 1 ([] ++ [(0%nat, mag)]) s Herr)
      as [r Hr].
    rewrite Hr. split; [|discriminate]. split.
    + discriminate.
    + intros [[Hlt _]|[_ H]]; [lia | discriminate].
Qed.

(** ** Moving and turning *)

Lemma Point_eq (p q : Point.t) :
  Point.x p = Point.x q -> Point.y p = Point.y q -> p = q.
Proof. destruct p, q. simpl. intros -> ->. reflexivity. Qed.

(** X15. The mutators of a body compose: relative moves add up and a
    relative move by the opposite vector undoes a move; an absolute move
    forgets the moves before it; relative rotations add up without any
    reduction of the angle; moving, turning and reshaping commute. *)
Theorem X15_mutators_compose (self : EllipticalBody.t) (p q : Point.t)
    (t1 t2 a b : R) (relative relative' : bool) :
  EllipticalBody.move (EllipticalBody.move self p true) q true
  = EllipticalBody.move self (Point.add p q) true
  /\ EllipticalBody.move (EllipticalBody.move self p true)
       (Point.mk (- Point.x p) (- Point.y p)) true = self
  /\ EllipticalBody.move (EllipticalBody.move self p relative) q false
     = EllipticalBody.move self q false
  /\ EllipticalBody.rotate (EllipticalBody.rotate self t1 true) t2 true
     = EllipticalBody.rotate self (t1 + t2) true
  /\ EllipticalBody.rotate (EllipticalBody.rotate self t1 relative) t2 false
     = EllipticalBody.rotate self t2 false
  /\ EllipticalBody.rotate (EllipticalBody.move self p relative) t1 relative'
     = EllipticalBody.move (EllipticalBody.rotate self t1 relative') p relative
  /\ EllipticalBody.reshape (EllipticalBody.move self p relative) a b
     = EllipticalBody.move (EllipticalBody.reshape self a b) p relative
  /\ EllipticalBody.reshape (EllipticalBody.rotate self t1 relative) a b
     = EllipticalBody.rotate (EllipticalBody.reshape self a b) t1 relative.
Proof.
  destruct self as [[px py] sa sb st sv], p as [dx dy], q as [ex ey].
  unfold EllipticalBody.move, EllipticalBody.rotate, EllipticalBody.reshape,
    Point.add.
  simpl. repeat split.
  - f_equal. apply Point_eq; simpl; ring.
  - f_equal. apply Point_eq; simpl; ring.
  - destruct relative; reflexivity.
  - f_equal. ring.
  - destruct relative; reflexivity.
  - destruct relative, relative'; reflexivity.
  - destruct relative; reflexivity.
  - destruct relative; reflexivity.
Qed.

Lemma rings_of_move (self : EllipticalBody.t) (l : list pyval) (p : Point.t)
    (relative : bool) :
  rings_of (EllipticalBody.move self p relative) l
  = map (region_move p relative) (rings_of self l).
Proof.
  unfold rings_of. rewrite map_map.
  destruct relative; simpl; apply map_ext; intros [[ar br] v]; reflexivity.
Qed.

Lemma rings_of_rotate (self : EllipticalBody.t) (l : list pyval) (angle : R)
    (relative : bool) :
  rings_of (EllipticalBody.rotate self angle relative) l
  = map (region_rotate angle relative) (rings_of self l).
Proof.
  unfold rings_of. rewrite map_map.
  destruct relative; simpl; apply map_ext; intros [[ar br] v]; reflexivity.
Qed.

(** X16. Deriving the regions of a body after moving or turning it gives
    what moving or turning each region of the body gives, with the same
    arguments; a brightness from which no region is derived raises the same
    exception before and after. *)
Theorem X16_bodies_follow_the_body (self : EllipticalBody.t) (p : Point.t)
    (angle : R) (relative : bool) :
  EllipticalBody.bodies (EllipticalBody.move self p relative)
  = rmap (map (region_move p relative)) (EllipticalBody.bodies self)
  /\ EllipticalBody.bodies (EllipticalBody.rotate self angle relative)
     = rmap (map (region_rotate angle relative)) (EllipticalBody.bodies self).
Proof.
  destruct (EllipticalBody.brightness self) as [v|?| |l|?] eqn:Hv.
  2, 3, 5: split; unfold EllipticalBody.bodies;
    destruct relative; simpl; rewrite Hv; reflexivity.
  - rewrite (bodies_scalar self v Hv).
    rewrite (bodies_scalar (EllipticalBody.move self p relative) v)
      by (destruct relative; exact Hv).
    rewrite (bodies_scalar (EllipticalBody.rotate self angle relative) v)
      by (destruct relative; exact Hv).
    destruct relative; split; reflexivity.
  - rewrite (bodies_profile self l Hv).
    rewrite (bodies_profile (EllipticalBody.move self p relative) l)
      by (destruct relative; exact Hv).
    rewrite (bodies_profile (EllipticalBody.rotate self angle relative) l)
      by (destruct relative; exact Hv).
    rewrite rings_of_move, rings_of_rotate. split; reflexivity.
Qed.

(** X17. The geometry of a ring does not depend on the order of the two
    bounds of [a_range] or of [b_range]. *)
Theorem X17_ring_bounds_unordered (pos : Point.t) (a0 a1 b0 b1 theta : R)
    (v : pyval) :
  EllipticRing.geometry (EllipticRing.mk pos (a1, a0) (b0, b1) theta v)
  = EllipticRing.geometry (EllipticRing.mk pos (a0, a1) (b0, b1) theta v)
  /\ EllipticRing.geometry (EllipticRing.mk pos (a0, a1) (b1, b0) theta v)
     = EllipticRing.geometry (EllipticRing.mk pos (a0, a1) (b0, b1) theta v).
Proof.
  unfold EllipticRing.geometry, EllipticRing.outer, EllipticRing.inner,
    EllipticRing.max, EllipticRing.min. simpl.
  rewrite (Rmax_comm a1 a0), (Rmin_comm a1 a0), (Rmax_comm b1 b0),
    (Rmin_comm b1 b0).
  split; reflexivity.
Qed.

Lemma shape_shift_center (d : Point.t) (s : Shape) :
  center (shape_shift d s) = shift (center s) d.
Proof. induction s; simpl; assumption || reflexivity. Qed.

Lemma unshift (q d : Point.t) :
  q = shift (Point.mk (Point.x q - Point.x d) (Point.y q - Point.y d)) d.
Proof. apply Point_eq; simpl; ring. Qed.

Lemma inside_shift (d : Point.t) (s : Shape) :
  forall p, inside (shape_shift d s) (shift p d) <-> inside s p.
Proof.
  induction s as [c r|g IH xf yf|g IH angle]; intros p.
  - simpl.
    replace (Point.x p + Point.x d - (Point.x c + Point.x d))
      with (Point.x p - Point.x c) by ring.
    replace (Point.y p + Point.y d - (Point.y c + Point.y d))
      with (Point.y p - Point.y c) by ring.
    reflexivity.
  - simpl. rewrite shape_shift_center. simpl. split.
    + intros (q & Hq & Hx & Hy). rewrite (unshift q d) in Hq, Hx, Hy.
      apply IH in Hq. eexists. split; [exact Hq|]. simpl in *.
      split; lra.
    + intros (q & Hq & Hx & Hy). exists (shift q d).
      split; [apply IH; exact Hq|]. simpl. split; lra.
  - simpl. rewrite shape_shift_center. simpl. split.
    + intros (q & Hq & Hx & Hy). rewrite (unshift q d) in Hq, Hx, Hy.
      apply IH in Hq. eexists. split; [exact Hq|]. simpl in *.
      split; lra.
    + intros (q & Hq & Hx & Hy). exists (shift q d).
      split; [apply IH; exact Hq|]. simpl. split; lra.
Qed.

Lemma Ellipse_shape_move (e : Ellipse.t) (d : Point.t) :
  Ellipse.shape (Ellipse.move e d true) = shape_shift d (Ellipse.shape e).
Proof.
  unfold Ellipse.shape. simpl. do 3 f_equal. apply Point_eq; simpl; ring.
Qed.

Lemma EllipticRing_shapes_move (e : EllipticRing.t) (d : Point.t) :
  EllipticRing.outer (EllipticRing.move e d true)
  = shape_shift d (EllipticRing.outer e)
  /\ EllipticRing.inner (EllipticRing.move e d true)
     = shape_shift d (EllipticRing.inner e).
Proof. split; reflexivity. Qed.

(** X18. A relative move translates a region: a point translated by the
    vector of the move is covered by the geometry of the moved region
    exactly when the point is covered by the geometry of the region. *)
Theorem X18_move_translates (r : Region) (d p : Point.t) :
  covers (geometry (region_move d true r)) (shift p d)
  <-> covers (geometry r) p.
Proof.
  destruct r as [e|e]; unfold region_move, geometry.
  - unfold Ellipse.geometry. cbn [covers].
    rewrite Ellipse_shape_move. apply inside_shift.
  - unfold EllipticRing.geometry. cbn [covers].
    destruct (EllipticRing_shapes_move e d) as [-> ->].
    rewrite !inside_shift. reflexivity.
Qed.

Lemma map_combine_map_l {A B C D} (g : A -> B) (f : B * C -> D)
    (f' : A * C -> D) (rs : list A) (l : list C) :
  (forall r v, f (g r, v) = f' (r, v)) ->
  map f (combine (map g rs) l) = map f' (combine rs l).
Proof.
  intros H. revert l. induction rs as [|r rs IH]; intros [|v l]; simpl;
    try reflexivity.
  rewrite H, IH. reflexivity.
Qed.

Lemma nested_area_region_move (p : Point.t) (relative : bool) (r : Region) :
  nested_area (geometry (region_move p relative r)) = nested_area (geometry r).
Proof. destruct r, relative; reflexivity. Qed.

Lemma nested_area_region_rotate (angle : R) (relative : bool) (r : Region) :
  nested_area (geometry (region_rotate angle relative r))
  = nested_area (geometry r).
Proof. destruct r, relative; reflexivity. Qed.

(** X19. With exact areas, the flux of a body, or the exception raised for
    it, does not change when the body is moved or turned. *)
Theorem X19_flux_keeps_under_pose (body : EllipticalBody.t) (p : Point.t)
    (angle : R) (relative : bool) :
  Binary.mag_of nested_area (EllipticalBody.move body p relative)
  = Binary.mag_of nested_area body
  /\ Binary.mag_of nested_area (EllipticalBody.rotate body angle relative)
     = Binary.mag_of nested_area body.
Proof.
  destruct (EllipticalBody.brightness body) as [v|?| |l|?] eqn:Hv.
  2, 3, 5: split; unfold Binary.mag_of, EllipticalBody.bodies;
    destruct relative; simpl; rewrite Hv; reflexivity.
  - rewrite (mag_of_scalar nested_area body v Hv).
    rewrite (mag_of_scalar nested_area (EllipticalBody.move body p relative) v)
      by (destruct relative; exact Hv).
    rewrite (mag_of_scalar nested_area
               (EllipticalBody.rotate body angle relative) v)
      by (destruct relative; exact Hv).
    destruct relative; split; reflexivity.
  - rewrite (mag_of_profile nested_area body l Hv).
    rewrite (mag_of_profile nested_area (EllipticalBody.move body p relative) l)
      by (destruct relative; exact Hv).
    rewrite (mag_of_profile nested_area
               (EllipticalBody.rotate body angle relative) l)
      by (destruct relative; exact Hv).
    rewrite rings_of_move, rings_of_rotate.
    rewrite (map_combine_map_l (region_move p relative) _
               (fun q => nested_area (geometry (fst q)) * number_of (snd q)))
      by (intros r v; simpl; rewrite nested_area_region_move; reflexivity).
    rewrite (map_combine_map_l (region_rotate angle relative) _
               (fun q => nested_area (geometry (fst q)) * number_of (snd q)))
      by (intros r v; simpl; rewrite nested_area_region_rotate; reflexivity).
    split; reflexivity.
Qed.

(** X20. In a run that returns, the first entry is the total flux of the
    system before the run and the last entry is the total flux of the
    system as the run leaves it: the next run starts with the flux this one
    ended with. *)
Theorem X20_first_and_last_entry (area : Polygon -> R) (s : Binary.t)
    (to : Point.t) (angle : R) (step : Z) (r : list (nat * R)) :
  fst (Binary.simulate area to angle step s) = ok r ->
  (exists mag,
     nth_error r 0 = Some (0%nat, mag)
     /\ Binary.get_total_mag area s = ok mag)
  /\ (exists mag,
        py_last r = ok ((Z.to_nat step - 1)%nat, mag)
        /\ Binary.get_total_mag area
             (snd (Binary.simulate area to angle step s)) = ok mag).
Proof.
  intros Hr. rewrite simulate_unfold in Hr |- *.
  destruct (Z.lt_ge_cases step 1) as [Hlt|Hge].
  { rewrite samples_of_rejects in Hr by exact Hlt. discriminate. }
  destruct (samples_of_run s to angle step Hge)
    as (samples & lims & Hs & Hlen & Hnth).
  rewrite Hs in Hr |- *. unfold ok in Hr |- *.
  destruct (frames_ok area samples 0 [] s s r (fun x => eq_refl) Hr)
    as (r' & -> & Hlen' & Hentries & Hlast).
  simpl. split.
  - destruct (Hentries 0%nat _ (Hnth 0%nat ltac:(lia))) as (mag & H0 & Hmag).
    exists mag. split; [exact H0|].
    unfold sample_at in Hmag. rewrite !interpolate_first in Hmag.
    rewrite place_present in Hmag. exact Hmag.
  - pose proof (Hnth (Z.to_nat step - 1)%nat ltac:(lia)) as Hn.
    destruct (Hentries _ _ Hn) as (mag & Hj & Hmag).
    exists mag. split.
    + apply py_last_of_nth_error.
      * intros E. rewrite E in Hlen'. simpl in Hlen'. lia.
      * rewrite Hlen', Hlen. exact Hj.
    + rewrite (Hlast (sample_at s to angle (Z.to_nat step) (Z.to_nat step - 1))).
      * exact Hmag.
      * apply py_last_of_nth_error.
        -- intros E. rewrite E in Hlen. simpl in Hlen. lia.
        -- rewrite Hlen. exact Hn.
Qed.

Lemma X20_first_and_last_entry_witness :
  exists r mag,
    fst (Binary.simulate nested_area (Point.mk (- 15) 0) 0 3
           (Binary.Two disc tno)) = ok r
    /\ nth_error r 0 = Some (0%nat, mag)
    /\ Binary.get_total_mag nested_area (Binary.Two disc tno) = ok mag.
Proof.
  destruct (samples_of_run (Binary.Two disc tno) (Point.mk (- 15) 0) 0 3
              ltac:(lia)) as (samples & lims & Hs & _ & _).
  destruct (frames_defined nested_area samples 0 [] (Binary.Two disc tno)
              eq_refl) as [r Hr].
  assert (H : fst (Binary.simulate nested_area (Point.mk (- 15) 0) 0 3
                     (Binary.Two disc tno)) = ok r).
  { rewrite simulate_unfold, Hs. exact Hr. }
  destruct (X20_first_and_last_entry nested_area _ _ _ _ r H)
    as [(mag & H0 & Hmag) _].
  exists r, mag. split; [exact H|]. split; [exact H0 | exact Hmag].
Defined.
